(** * Session and live-state synchronisation layer

    A shallow embedding of the client-side hooks ([useUserStats],
    [useUserActivity], [useChallenges], [useUpdateUserStats]) and of the
    authentication provider ([AuthProvider]), with the properties of the
    session and live-query layer stated and proved over it.

    Conventions.  JavaScript numbers are integers [Z] (ratings count
    hundredths); a value that may be [null]/[undefined] is an [option]; an
    awaited promise is [Fulfilled] or [Rejected]; the remote service is an
    explicit argument (its answers are inputs of the model). *)

From stdpp Require Import base list strings sorting.
From Stdlib Require Import ZArith Lia.

Local Open Scope string_scope.
Local Open Scope Z_scope.

(** ** JavaScript-level helpers *)

Module Js.

(** What a [catch (err)] clause may receive: an [Error] object, or another
    value for which [err instanceof Error] is false. *)
Inductive Thrown :=
| ThrownError (msg : string)
| ThrownValue (v : string).

(** Result of [await p]. *)
Inductive Await (A : Type) :=
| Fulfilled (a : A)
| Rejected (t : Thrown).
Arguments Fulfilled {A} a.
Arguments Rejected {A} t.

(** How a call of an [async] function ends for its caller. *)
Inductive Completion (A : Type) :=
| Return (a : A)
| Throw (t : Thrown).
Arguments Return {A} a.
Arguments Throw {A} t.

(** [x || 0] on a number that may be missing. *)
Definition or_zero (x : option Z) : Z :=
  match x with
  | Some v => v
  | None => 0
  end.

(** [s || d] on strings: the empty string is falsy. *)
Definition or_string (s d : string) : string :=
  if String.eqb s "" then d else s.

(** [!!s] on a string that may be missing (as in [!user?.id]). *)
Definition truthy_string (s : option string) : bool :=
  match s with
  | Some v => negb (String.eqb v "")
  | None => false
  end.

(** Index normalisation of [Array.prototype.slice]. *)
Definition relative_index (len i : Z) : Z :=
  if i <? 0 then Z.max (len + i) 0 else Z.min i len.

(** [l.slice(start, stop)]. *)
Definition slice {A} (l : list A) (start stop : Z) : list A :=
  let len := Z.of_nat (length l) in
  let k := relative_index len start in
  let final := relative_index len stop in
  take (Z.to_nat (final - k)) (drop (Z.to_nat k) l).

End Js.
Import Js.

(** ** What the data service answers *)

Module Supabase.

Record RemoteError := { message : string }.

(** The [{ data, error }] object every query resolves to. *)
Record Result (D : Type) := { data : option D; error : option RemoteError }.
Arguments data {D} r.
Arguments error {D} r.

Definition ok {D} (d : D) : Result D := {| data := Some d; error := None |}.
Definition failed {D} (e : RemoteError) : Result D :=
  {| data := None; error := Some e |}.

(** The service as seen by one query: reachable with some table contents,
    answering with an error, or not answering at all (the promise rejects). *)
Inductive Backend (Row : Type) :=
| Up (table : list Row)
| Down (e : RemoteError)
| Broken (t : Thrown).
Arguments Up {Row} table.
Arguments Down {Row} e.
Arguments Broken {Row} t.

(** [.single()]: exactly one row, or an error. *)
Definition single {Row} (rows : list Row) : Result Row :=
  match rows with
  | [r] => ok r
  | _ => failed {| message := "JSON object requested, multiple (or no) rows returned" |}
  end.

Definition answer {Row D} (select : list Row -> Result D) (b : Backend Row)
  : Await (Result D) :=
  match b with
  | Up table => Fulfilled (select table)
  | Down e => Fulfilled (failed e)
  | Broken t => Rejected t
  end.

(** A query that ended with a reported error or with a rejected promise. *)
Definition fetch_failed {D} (r : Await (Result D)) : bool :=
  match r with
  | Fulfilled res => bool_decide (is_Some (error res))
  | Rejected _ => true
  end.

End Supabase.
Import Supabase.

(** ** The fetch-then-subscribe effect shared by the three data hooks

    Each hook runs the same [useEffect]: without an identity it resets its
    state and returns; otherwise it starts a query, opens a channel and
    returns a cleanup that closes the channel.  The machine below keeps the
    hook state, the identity of the last effect run, whether the channel is
    open, and the queries whose promise has not settled yet. *)

Module LiveQuery.
Section Effect.
Context {St Q B Resp Payload : Type}.
(** branch [if (!user?.id)] of the effect *)
Variable no_identity : St -> St.
(** the query started by the fetch function for a given [user.id] *)
Variable query_for : string -> Q.
(** what the service answers to a query *)
Variable respond : B -> Q -> Await Resp.
(** body of the fetch function from its [await] on *)
Variable fetch_done : Await Resp -> St -> St.
(** state written by the channel callback *)
Variable on_change : Payload -> St -> St.
(** whether the channel callback calls the fetch function *)
Variable refetch_on_change : bool.

Record Inst := mkInst {
  hook : St;
  identity : option string;
  channel : bool;
  inflight : list Q;
  issued : nat
}.

Inductive Event :=
  | Activate (u : option string)   (* the effect body runs *)
  | Cleanup                        (* the cleanup returned by the effect runs *)
  | FetchDone (k : nat) (b : B)    (* the k-th pending query settles *)
  | Change (p : Payload).          (* the channel delivers an event *)

Definition start_fetch (uid : string) (i : Inst) : Inst :=
  {| hook := hook i; identity := identity i; channel := channel i;
     inflight := inflight i ++ [query_for uid]; issued := S (issued i) |}.

Definition step (e : Event) (i : Inst) : option Inst :=
  match e with
  | Activate u =>
      if channel i then None
      else if truthy_string u then
        match u with
        | Some uid =>
            Some (start_fetch uid
                    {| hook := hook i; identity := u; channel := true;
                       inflight := inflight i; issued := issued i |})
        | None => None
        end
      else
        Some {| hook := no_identity (hook i); identity := u; channel := false;
                inflight := inflight i; issued := issued i |}
  | Cleanup =>
      if channel i then
        Some {| hook := hook i; identity := identity i; channel := false;
                inflight := inflight i; issued := issued i |}
      else None
  | FetchDone k b =>
      match inflight i !! k with
      | Some q =>
          Some {| hook := fetch_done (respond b q) (hook i);
                  identity := identity i; channel := channel i;
                  inflight := delete k (inflight i); issued := issued i |}
      | None => None
      end
  | Change p =>
      if channel i then
        let i' := {| hook := on_change p (hook i); identity := identity i;
                     channel := true; inflight := inflight i;
                     issued := issued i |} in
        if refetch_on_change then
          match identity i with
          | Some uid => Some (start_fetch uid i')
          | None => None
          end
        else Some i'
      else None
  end.

Fixpoint run (es : list Event) (i : Inst) : option Inst :=
  match es with
  | [] => Some i
  | e :: es' =>
      match step e i with
      | Some i' => run es' i'
      | None => None
      end
  end.

Definition mount (s : St) : Inst :=
  {| hook := s; identity := None; channel := false; inflight := []; issued := 0 |}.

(** Identities for which an effect has started a query. *)
Fixpoint activated (es : list Event) : list string :=
  match es with
  | [] => []
  | Activate (Some uid) :: es' =>
      if truthy_string (Some uid) then uid :: activated es' else activated es'
  | _ :: es' => activated es'
  end.

(** An open channel belongs to an effect that had an identity. *)
Definition channel_owned (i : Inst) : Prop :=
  channel i = true ->
  exists uid, identity i = Some uid /\ truthy_string (Some uid) = true.

End Effect.
Arguments Inst St Q : clear implicits.
Arguments Event B Payload : clear implicits.
End LiveQuery.

(** ** [useUserStats] *)

Module UserStats.

Record UserStats := {
  portfolio_views : Z;
  followers : Z;
  rating : Z;
  loyalty_points : Z;
  projects_completed : Z
}.

(** The five columns as they arrive ([data] or [payload.new]): each may be
    missing. *)
Record Columns := {
  col_portfolio_views : option Z;
  col_followers : option Z;
  col_rating : option Z;
  col_loyalty_points : option Z;
  col_projects_completed : option Z
}.

Record Row := { user_id : string; columns : Columns }.

Record Payload := { new : option Columns }.

Record State := { stats : option UserStats; loading : bool; error : option string }.

Definition setStats (v : option UserStats) (s : State) : State :=
  {| stats := v; loading := loading s; error := error s |}.
Definition setLoading (v : bool) (s : State) : State :=
  {| stats := stats s; loading := v; error := error s |}.
Definition setError (v : option string) (s : State) : State :=
  {| stats := stats s; loading := loading s; error := v |}.

(** [useState] initial values. *)
Definition initial : State := {| stats := None; loading := true; error := None |}.

Definition zero_stats : UserStats :=
  {| portfolio_views := 0; followers := 0; rating := 0;
     loyalty_points := 0; projects_completed := 0 |}.

Definition fill_zero (c : Columns) : UserStats :=
  {| portfolio_views := or_zero (col_portfolio_views c);
     followers := or_zero (col_followers c);
     rating := or_zero (col_rating c);
     loyalty_points := or_zero (col_loyalty_points c);
     projects_completed := or_zero (col_projects_completed c) |}.

Definition no_identity (s : State) : State :=
  setStats (Some zero_stats) (setLoading false s).

(** [from('user_stats').select('*').eq('user_id', uid).single()] *)
Definition select (uid : string) (table : list Row) : Result Columns :=
  let r := single (filter (fun r => user_id r = uid) table) in
  {| data := columns <$> data r; Supabase.error := Supabase.error r |}.

Definition respond (b : Backend Row) (uid : string) : Await (Result Columns) :=
  answer (select uid) b.

(** [fetchUserStats] from the [await] on. *)
Definition fetchUserStats (r : Await (Result Columns)) (s : State) : State :=
  match r with
  | Fulfilled res =>
      match Supabase.error res with
      | Some _ =>
          setLoading false (setError None (setStats (Some zero_stats) s))
      | None =>
          match data res with
          | Some d => setLoading false (setStats (Some (fill_zero d)) s)
          | None => setLoading false s
          end
      end
  | Rejected _ => setLoading false (setStats (Some zero_stats) s)
  end.

Definition on_change (p : Payload) (s : State) : State :=
  match new p with
  | Some c => setStats (Some (fill_zero c)) s
  | None => s
  end.

Definition step := LiveQuery.step no_identity (fun uid => uid) respond
                     fetchUserStats on_change false.
Definition run := LiveQuery.run no_identity (fun uid => uid) respond
                    fetchUserStats on_change false.
Definition useUserStats : LiveQuery.Inst State string := LiveQuery.mount initial.

End UserStats.

(** ** [useUserActivity] *)

Module UserActivity.

Inductive ActionType := update | follower | approval | achievement.

(** A row of [user_activity]; [select('*')] also brings [user_id]. *)
Record UserActivity := {
  user_id : string;
  id : string;
  action : string;
  action_type : ActionType;
  created_at : string
}.

Record Payload := { new : option UserActivity }.

Record State := {
  activities : list UserActivity;
  loading : bool;
  error : option string
}.

Definition setActivities (f : list UserActivity -> list UserActivity) (s : State)
  : State :=
  {| activities := f (activities s); loading := loading s; error := error s |}.
Definition setLoading (v : bool) (s : State) : State :=
  {| activities := activities s; loading := v; error := error s |}.
Definition setError (v : option string) (s : State) : State :=
  {| activities := activities s; loading := loading s; error := v |}.

Definition initial : State := {| activities := []; loading := true; error := None |}.

Definition no_identity (s : State) : State :=
  setActivities (fun _ => []) (setLoading false s).

(** [order('created_at', { ascending: false })] *)
Definition newer_first (a b : UserActivity) : Prop :=
  Is_true (String.leb (created_at b) (created_at a)).

Record Query := { q_user : string; q_limit : Z }.

(** [from('user_activity').select('*').eq('user_id', uid)
      .order('created_at', { ascending: false }).limit(limit)] *)
Definition select (q : Query) (table : list UserActivity)
  : Result (list UserActivity) :=
  ok (take (Z.to_nat (q_limit q))
        (merge_sort newer_first (filter (fun r => user_id r = q_user q) table))).

Definition respond (b : Backend UserActivity) (q : Query)
  : Await (Result (list UserActivity)) :=
  answer (select q) b.

Section Limit.
(** the hook's argument, [limit: number = 10]; it is fixed for the effect runs
    of one [run], and a call of the hook with another value is a [run] with
    that value from the instance reached *)
Variable limit : Z.

(** [fetchUserActivity] from the [await] on. *)
Definition fetchUserActivity (r : Await (Result (list UserActivity))) (s : State)
  : State :=
  match r with
  | Fulfilled res =>
      match Supabase.error res with
      | Some _ =>
          setLoading false (setError None (setActivities (fun _ => []) s))
      | None =>
          match data res with
          | Some d => setLoading false (setActivities (fun _ => d) s)
          | None => setLoading false s
          end
      end
  | Rejected _ => setLoading false (setActivities (fun _ => []) s)
  end.

(** the [INSERT] callback *)
Definition on_insert (p : Payload) (s : State) : State :=
  match new p with
  | Some a => setActivities (fun prev => a :: slice prev 0 (limit - 1)) s
  | None => s
  end.

Definition query_for (uid : string) : Query := {| q_user := uid; q_limit := limit |}.

Definition step := LiveQuery.step no_identity query_for respond
                     fetchUserActivity on_insert false.
Definition run := LiveQuery.run no_identity query_for respond
                    fetchUserActivity on_insert false.
End Limit.

Definition default_limit : Z := 10.

(** The list and every pending query respect the cap. *)
Definition within_cap (limit : Z) (i : LiveQuery.Inst State Query) : Prop :=
  Z.of_nat (length (activities (LiveQuery.hook i))) <= limit /\
  Forall (fun q => q_limit q = limit) (LiveQuery.inflight i).
Definition useUserActivity : LiveQuery.Inst State Query := LiveQuery.mount initial.

End UserActivity.

(** ** [useChallenges] *)

Module Challenges.

Inductive Status := active | completed | expired.

#[global] Instance Status_eq_dec : EqDecision Status.
Proof. solve_decision. Defined.

(** A row of [challenges]; [select('*')] also brings [user_id]. *)
Record Challenge := {
  user_id : string;
  id : string;
  title : string;
  description : option string;
  progress : Z;
  reward : string;
  status : Status
}.

(** The callback ignores its payload; only the kind of event is kept. *)
Inductive Payload := INSERT | UPDATE | DELETE.

Record State := {
  challenges : list Challenge;
  loading : bool;
  error : option string
}.

Definition setChallenges (v : list Challenge) (s : State) : State :=
  {| challenges := v; loading := loading s; error := error s |}.
Definition setLoading (v : bool) (s : State) : State :=
  {| challenges := challenges s; loading := v; error := error s |}.
Definition setError (v : option string) (s : State) : State :=
  {| challenges := challenges s; loading := loading s; error := v |}.

Definition initial : State := {| challenges := []; loading := true; error := None |}.

Definition no_identity (s : State) : State :=
  setChallenges [] (setLoading false s).

(** [from('challenges').select('*').eq('user_id', uid).eq('status', 'active')
      .limit(3)] *)
Definition select (uid : string) (table : list Challenge) : Result (list Challenge) :=
  ok (take 3 (filter (fun c => status c = active)
                (filter (fun c => user_id c = uid) table))).

Definition respond (b : Backend Challenge) (uid : string)
  : Await (Result (list Challenge)) :=
  answer (select uid) b.

(** [fetchChallenges] from the [await] on. *)
Definition fetchChallenges (r : Await (Result (list Challenge))) (s : State) : State :=
  match r with
  | Fulfilled res =>
      match Supabase.error res with
      | Some _ => setLoading false (setError None (setChallenges [] s))
      | None =>
          match data res with
          | Some d => setLoading false (setChallenges d s)
          | None => setLoading false s
          end
      end
  | Rejected _ => setLoading false (setChallenges [] s)
  end.

(** The callback writes no state; it calls [fetchChallenges]. *)
Definition on_change (p : Payload) (s : State) : State := s.

Definition step := LiveQuery.step no_identity (fun uid => uid) respond
                     fetchChallenges on_change true.
Definition run := LiveQuery.run no_identity (fun uid => uid) respond
                    fetchChallenges on_change true.
Definition useChallenges : LiveQuery.Inst State string := LiveQuery.mount initial.

(** At most three rows, all active, all belonging to one of [ids]; pending
    queries and the open channel are for identities in [ids] too. *)
Definition drawn_from (ids : list string) (i : LiveQuery.Inst State string) : Prop :=
  (length (challenges (LiveQuery.hook i)) <= 3)%nat /\
  Forall (fun c => status c = active /\ user_id c ∈ ids)
    (challenges (LiveQuery.hook i)) /\
  Forall (fun uid => uid ∈ ids) (LiveQuery.inflight i) /\
  (LiveQuery.channel i = true ->
   exists uid, LiveQuery.identity i = Some uid /\ uid ∈ ids).

End Challenges.

(** ** [useUpdateUserStats] *)

Module UpdateUserStats.

Record UpdateUserStatsInput := {
  portfolio_views : option Z;
  followers : option Z;
  rating : option Z;
  loyalty_points : option Z;
  projects_completed : option Z
}.

Section Remote.
(** [from('user_stats').update(updates).eq('user_id', uid).select().single()] *)
Variable remote : UpdateUserStatsInput -> string -> Await (Result UserStats.Row).

Definition try_catch {A} (body : Completion A) (handler : Thrown -> Completion A)
  : Completion A :=
  match body with
  | Throw t => handler t
  | Return a => Return a
  end.

Definition updateStats (user_id : option string) (updates : UpdateUserStatsInput)
  : Completion (option UserStats.Row) :=
  match user_id with
  | Some uid =>
      if truthy_string user_id then
        try_catch
          match remote updates uid with
          | Fulfilled res =>
              match error res with
              | Some e =>
                  Throw (ThrownError (or_string (message e) "Failed to update stats"))
              | None => Return (data res)
              end
          | Rejected t => Throw t
          end
          (fun err =>
             let errorMessage :=
               match err with
               | ThrownError msg => msg
               | ThrownValue _ => "Unknown error"
               end in
             Throw (ThrownError errorMessage))
      else Throw (ThrownError "User not authenticated")
  | None => Throw (ThrownError "User not authenticated")
  end.
End Remote.

End UpdateUserStats.

(** ** [AuthProvider] *)

Module AuthContext.

Inductive Tier := free | premium | professional | elite.
Inductive Role := creator | member.

#[global] Instance Role_eq_dec : EqDecision Role.
Proof. solve_decision. Defined.

Record Profile := {
  id : string;
  name : string;
  tier : Tier;
  loyalty_points : Z;
  profile_image : option string;
  account_type : Role;
  role : Role;
  is_verified : bool;
  joined_date : string
}.

(** [{ ...profile, email }] *)
Record AppUser := { profile : Profile; email : string }.

(** [Partial<Profile>] *)
Record PartialProfile := {
  set_id : option string;
  set_name : option string;
  set_tier : option Tier;
  set_loyalty_points : option Z;
  set_profile_image : option string;
  set_account_type : option Role;
  set_role : option Role;
  set_is_verified : option bool;
  set_joined_date : option string
}.

(** The fields [signUp] reads from its argument. *)
Record SignUpInput := {
  su_email : string;
  su_password : string;
  su_name : string;
  su_accountType : string
}.

(** [data] of [auth.signUp]: only [data.user] is looked at. *)
Record SignUpData := { su_user : option string }.

(** [session?.user] as the auth callback receives it. *)
Record SessionUser := { session_id : string; session_email : string }.

Inductive Request :=
| SignInWithPassword (email password : string)
| SignUp (email password name accountType : string)
| SignOut
| SelectProfile (id : string)                        (* .select('*').eq('id', id).single() *)
| UpdateProfile (userData : PartialProfile) (id : string).  (* .update(userData).eq('id', id) *)

Definition reply (r : Request) : Type :=
  match r with
  | SignUp _ _ _ _ => SignUpData
  | SelectProfile _ => Profile
  | _ => unit
  end.

(** What a call does besides writing state, in order. *)
Inductive Trace :=
| Called (r : Request)
| Slept (ms : Z)
| Alerted (msg : string)
| Logged (msg : string).

Section Remote.
(** The auth and data service: any state, any answers. *)
Context {RS : Type}.
Variable remote : forall r : Request, RS -> Await (Result (reply r)) * RS.

Record World := {
  service : RS;
  user : option AppUser;
  loading : bool;
  mounted : bool;
  trace : list Trace
}.

Definition M (A : Type) : Type := World -> Completion A * World.

Definition ret {A} (a : A) : M A := fun w => (Return a, w).
Definition throw {A} (t : Thrown) : M A := fun w => (Throw t, w).
Definition bind {A B} (c : M A) (k : A -> M B) : M B :=
  fun w =>
    match c w with
    | (Return a, w') => k a w'
    | (Throw t, w') => (Throw t, w')
    end.

Definition try_catch {A} (body : M A) (handler : Thrown -> M A) : M A :=
  fun w =>
    match body w with
    | (Throw t, w') => handler t w'
    | (Return a, w') => (Return a, w')
    end.

Definition try_finally {A} (body : M A) (finalizer : M unit) : M A :=
  fun w =>
    match body w with
    | (c, w') =>
        match finalizer w' with
        | (Return _, w'') => (c, w'')
        | (Throw t, w'') => (Throw t, w'')
        end
    end.

Definition emit (t : Trace) : M unit :=
  fun w => (Return tt,
            {| service := service w; user := user w; loading := loading w;
               mounted := mounted w; trace := trace w ++ [t] |}).

Definition setUser (u : option AppUser) : M unit :=
  fun w => (Return tt,
            {| service := service w; user := u; loading := loading w;
               mounted := mounted w; trace := trace w |}).

Definition setLoading (b : bool) : M unit :=
  fun w => (Return tt,
            {| service := service w; user := user w; loading := b;
               mounted := mounted w; trace := trace w |}).

Definition getUser : M (option AppUser) := fun w => (Return (user w), w).
Definition getMounted : M bool := fun w => (Return (mounted w), w).

(** [await] of a request to the service.  [mounted] is not touched: a call
    runs with the flag it started with (the cleanup running while a request
    is pending is the subject of [AuthUnmount]). *)
Definition await (r : Request) : M (Result (reply r)) :=
  fun w =>
    match remote r (service w) with
    | (a, rs) =>
        let w' := {| service := rs; user := user w; loading := loading w;
                     mounted := mounted w; trace := trace w ++ [Called r] |} in
        match a with
        | Fulfilled res => (Return res, w')
        | Rejected t => (Throw t, w')
        end
    end.

Definition alert (msg : string) : M unit := emit (Alerted msg).
Definition console (msg : string) : M unit := emit (Logged msg).
(** [await new Promise(resolve => setTimeout(resolve, ms))] *)
Definition sleep (ms : Z) : M unit := emit (Slept ms).

Definition when (b : bool) (c : M unit) : M unit := if b then c else ret tt.

End Remote.

Arguments World RS : clear implicits.
Arguments M RS A : clear implicits.

(** Sequencing is written [x ← c; k] and [c;; k]. *)
#[global] Instance M_ret {RS} : MRet (M RS) := fun A a => ret a.
#[global] Instance M_bind {RS} : MBind (M RS) := fun A B k c => bind c k.

Section Provider.
Context {RS : Type}.
Variable remote : forall r : Request, RS -> Await (Result (reply r)) * RS.

Definition getProfile (id email : string) : M RS (option AppUser) :=
  res ← await remote (SelectProfile id);
  match error res with
  | Some e =>
      console ("Error fetching profile: " ++ message e)%string;;
      ret None
  | None =>
      match data res with
      | Some profile => ret (Some {| profile := profile; email := email |})
      | None => ret None
      end
  end.

(** What [getProfile] returns for an answer of the service. *)
Definition resolved (res : Result Profile) (email : string) : option AppUser :=
  match error res with
  | Some _ => None
  | None =>
      match data res with
      | Some profile => Some {| profile := profile; email := email |}
      | None => None
      end
  end.

(** The world once a request has been answered. *)
Definition answered (r : Request) (rs : RS) (w : World RS) : World RS :=
  {| service := rs; user := user w; loading := loading w;
     mounted := mounted w; trace := trace w ++ [Called r] |}.

(** The auth-state listener; [session] is [session?.user]. *)
Definition handleAuthEvent (event : string) (session : option SessionUser)
  : M RS unit :=
  try_finally
    (try_catch
       (if (String.eqb event "TOKEN_REFRESH_FAILED" || String.eqb event "SIGNED_OUT")%bool
        then
          try_catch (await remote SignOut;; mret tt)
            (fun _ => console "Error signing out after auth event:");;
          m ← getMounted;
          when m (setUser None)
        else
          match session with
          | Some su =>
              appUser ← getProfile (session_id su) (session_email su);
              m ← getMounted;
              when m (setUser appUser)
          | None =>
              m ← getMounted;
              when m (setUser None)
          end)
       (fun _ =>
          console "Auth listener error:";;
          m ← getMounted;
          when m
            (try_catch (await remote SignOut;; mret tt) (fun _ => ret tt);;
             setUser None)))
    (m ← getMounted; when m (setLoading false)).

Definition signIn (email password : string) : M RS unit :=
  setLoading true;;
  res ← await remote (SignInWithPassword email password);
  match error res with
  | Some e => alert (message e)
  | None => ret tt
  end;;
  setLoading false.

Definition signUp (userData : SignUpInput) : M RS unit :=
  setLoading true;;
  res ← await remote (SignUp (su_email userData) (su_password userData)
                        (su_name userData) (su_accountType userData));
  match error res with
  | Some e =>
      alert (message e);;
      setLoading false
  | None =>
      match data res with
      | Some d =>
          match su_user d with
          | Some _ => sleep 500
          | None => ret tt
          end;;
          setLoading false
      | None => throw (ThrownError "TypeError: Cannot read properties of null")
      end
  end.

Definition signOut : M RS unit :=
  await remote SignOut;;
  setUser None.

Definition updateUser (userData : PartialProfile) : M RS unit :=
  current ← getUser;
  match current with
  | Some u =>
      res ← await remote (UpdateProfile userData (id (profile u)));
      match error res with
      | Some e => console ("Error updating user profile: " ++ message e)%string
      | None =>
          updatedUser ← getProfile (id (profile u)) (email u);
          setUser updatedUser
      end
  | None => ret tt
  end.

Definition toggle (r : Role) : Role :=
  if decide (r = creator) then member else creator.

Definition no_fields : PartialProfile :=
  {| set_id := None; set_name := None; set_tier := None;
     set_loyalty_points := None; set_profile_image := None;
     set_account_type := None; set_role := None;
     set_is_verified := None; set_joined_date := None |}.

(** The object literal [{ role: newRole, account_type: newAccountType }]. *)
Definition role_fields (newRole newAccountType : Role) : PartialProfile :=
  {| set_id := None; set_name := None; set_tier := None;
     set_loyalty_points := None; set_profile_image := None;
     set_account_type := Some newAccountType; set_role := Some newRole;
     set_is_verified := None; set_joined_date := None |}.

Definition switchRole : M RS unit :=
  current ← getUser;
  match current with
  | Some u =>
      let newRole := toggle (role (profile u)) in
      let newAccountType := toggle (account_type (profile u)) in
      updateUser (role_fields newRole newAccountType)
  | None => ret tt
  end.

End Provider.

End AuthContext.

(** ** Concrete inputs

    A small in-memory service and a few rows, on which the hooks and the
    provider are run in the examples below. *)

Module Sample.
Import AuthContext.

Inductive Mode :=
| Healthy
| Erroring (msg : string)
| Throwing (t : Thrown).

Record Service := {
  auth : Mode;
  writes : Mode;
  reads : Mode;
  profiles : list Profile
}.

Definition by_mode {D} (m : Mode) (healthy : Result D) : Await (Result D) :=
  match m with
  | Healthy => Fulfilled healthy
  | Erroring msg => Fulfilled (failed {| message := msg |})
  | Throwing t => Rejected t
  end.

Definition patch (d : PartialProfile) (p : Profile) : Profile :=
  {| id := default (id p) (set_id d);
     name := default (name p) (set_name d);
     tier := default (tier p) (set_tier d);
     loyalty_points := default (loyalty_points p) (set_loyalty_points d);
     profile_image :=
       match set_profile_image d with
       | Some v => Some v
       | None => profile_image p
       end;
     account_type := default (account_type p) (set_account_type d);
     role := default (role p) (set_role d);
     is_verified := default (is_verified p) (set_is_verified d);
     joined_date := default (joined_date p) (set_joined_date d) |}.

Definition serve (r : Request) (s : Service) : Await (Result (reply r)) * Service :=
  match r return Await (Result (reply r)) * Service with
  | SignInWithPassword _ _ => (by_mode (auth s) (ok tt), s)
  | SignUp email _ _ _ => (by_mode (auth s) (ok {| su_user := Some email |}), s)
  | SignOut => (by_mode (auth s) {| data := None; error := None |}, s)
  | SelectProfile i =>
      (by_mode (reads s) (single (filter (fun p => id p = i) (profiles s))), s)
  | UpdateProfile d i =>
      (by_mode (writes s) {| data := None; error := None |},
       match writes s with
       | Healthy =>
           {| auth := auth s; writes := writes s; reads := reads s;
              profiles := (fun p => if decide (id p = i) then patch d p else p)
                            <$> profiles s |}
       | _ => s
       end)
  end.

Definition ada : Profile :=
  {| id := "u1"; name := "Ada"; tier := free; loyalty_points := 120;
     profile_image := None; account_type := creator; role := creator;
     is_verified := true; joined_date := "2024-01-05T10:00:00Z" |}.

(** A profile whose [role] and [account_type] differ. *)
Definition bob : Profile :=
  {| id := "u2"; name := "Bob"; tier := premium; loyalty_points := 1500;
     profile_image := None; account_type := member; role := creator;
     is_verified := false; joined_date := "2024-02-11T08:30:00Z" |}.

Definition rename (n : string) : PartialProfile :=
  {| set_id := None; set_name := Some n; set_tier := None;
     set_loyalty_points := None; set_profile_image := None;
     set_account_type := None; set_role := None;
     set_is_verified := None; set_joined_date := None |}.

Definition role_only (r : Role) : PartialProfile :=
  {| set_id := None; set_name := None; set_tier := None;
     set_loyalty_points := None; set_profile_image := None;
     set_account_type := None; set_role := Some r;
     set_is_verified := None; set_joined_date := None |}.

Definition ada_user : AppUser := {| profile := ada; email := "ada@example.org" |}.
Definition bob_user : AppUser := {| profile := bob; email := "bob@example.org" |}.

Definition service_of (a w r : Mode) : Service :=
  {| auth := a; writes := w; reads := r; profiles := [ada; bob] |}.

Definition world_of (sv : Service) (u : option AppUser) : World Service :=
  {| service := sv; user := u; loading := false; mounted := true; trace := [] |}.

Definition activity (n : string) (t : string) : UserActivity.UserActivity :=
  {| UserActivity.user_id := "u1"; UserActivity.id := n;
     UserActivity.action := "Updated portfolio";
     UserActivity.action_type := UserActivity.update;
     UserActivity.created_at := t |}.

Definition ten_activities : list UserActivity.UserActivity :=
  [ activity "a10" "2024-03-10"; activity "a09" "2024-03-09";
    activity "a08" "2024-03-08"; activity "a07" "2024-03-07";
    activity "a06" "2024-03-06"; activity "a05" "2024-03-05";
    activity "a04" "2024-03-04"; activity "a03" "2024-03-03";
    activity "a02" "2024-03-02"; activity "a01" "2024-03-01" ].

Definition stats_row (uid : string) (views : Z) : UserStats.Row :=
  {| UserStats.user_id := uid;
     UserStats.columns :=
       {| UserStats.col_portfolio_views := Some views;
          UserStats.col_followers := Some 7;
          UserStats.col_rating := Some 450;
          UserStats.col_loyalty_points := None;
          UserStats.col_projects_completed := Some 3 |} |}.

Definition stats_remote (m : Mode) (updates : UpdateUserStats.UpdateUserStatsInput)
    (uid : string) : Await (Result UserStats.Row) :=
  by_mode m (ok (stats_row uid (default 42 (UpdateUserStats.portfolio_views updates)))).

Definition followers_only (n : Z) : UpdateUserStats.UpdateUserStatsInput :=
  {| UpdateUserStats.portfolio_views := None;
     UpdateUserStats.followers := Some n;
     UpdateUserStats.rating := None;
     UpdateUserStats.loyalty_points := None;
     UpdateUserStats.projects_completed := None |}.

Definition challenge (uid n : string) (st : Challenges.Status) : Challenges.Challenge :=
  {| Challenges.user_id := uid; Challenges.id := n;
     Challenges.title := "Publish a project"; Challenges.description := None;
     Challenges.progress := 40; Challenges.reward := "50 points";
     Challenges.status := st |}.

Definition challenge_table : list Challenges.Challenge :=
  [ challenge "u1" "c1" Challenges.active; challenge "u2" "c2" Challenges.active;
    challenge "u1" "c3" Challenges.completed; challenge "u1" "c4" Challenges.active;
    challenge "u1" "c5" Challenges.active; challenge "u1" "c6" Challenges.active ].

End Sample.

(** ** [AuthProvider]: the initial session check *)

Module AuthSession.
Import AuthContext.

(** Canonicalisation of a character under the [i] flag, on ASCII letters. *)
Definition lower (c : Ascii.ascii) : Ascii.ascii :=
  let n := Ascii.N_of_ascii c in
  if ((65 <=? n)%N && (n <=? 90)%N)%bool then Ascii.ascii_of_N (n + 32) else c.

Fixpoint lowercase (s : string) : string :=
  match s with
  | EmptyString => EmptyString
  | String c rest => String (lower c) (lowercase rest)
  end.

(** Whether [needle] occurs somewhere in [hay]. *)
Fixpoint includes (needle hay : string) : bool :=
  match hay with
  | EmptyString => String.prefix needle EmptyString
  | String _ rest => String.prefix needle hay || includes needle rest
  end.

(** [/refresh token/i.test(msg)] *)
Definition mentions_refresh_token (msg : string) : bool :=
  includes "refresh token" (lowercase msg).

Section Provider.
Context {RS : Type}.
Variable remote : forall r : Request, RS -> Await (Result (reply r)) * RS.

(** [getInitialSession] from its first [await] on: [session] is what
    [supabase.auth.getSession()] settled to, its [data] being
    [data.session?.user]. *)
Definition getInitialSession (session : Await (Result (option SessionUser)))
  : M RS unit :=
  try_finally
    (try_catch
       match session with
       | Rejected t => throw t
       | Fulfilled res =>
           match error res with
           | Some e =>
               console ("Error getting initial session: " ++ message e)%string;;
               if mentions_refresh_token (message e) then
                 try_catch (await remote SignOut;; mret tt) (fun _ => ret tt);;
                 m ← getMounted;
                 when m (setUser None)
               else ret tt
           | None =>
               match data res with
               | Some (Some su) =>
                   appUser ← getProfile remote (session_id su) (session_email su);
                   m ← getMounted;
                   when m (setUser appUser)
               | _ => ret tt
               end
           end
       end
       (fun _ =>
          console "Unexpected error getting initial session:";;
          try_catch (await remote SignOut;; mret tt) (fun _ => ret tt);;
          m ← getMounted;
          when m (setUser None)))
    (m ← getMounted; when m (setLoading false)).

(** The cleanup of the provider's effect: [mounted = false]. *)
Definition unmount (w : World RS) : World RS :=
  {| service := service w; user := user w; loading := loading w;
     mounted := false; trace := trace w |}.

(** The requests among the effects of a call. *)
Fixpoint requests (t : list Trace) : list Request :=
  match t with
  | [] => []
  | Called r :: rest => r :: requests rest
  | _ :: rest => requests rest
  end.

(** The state the provider starts in: [useState(null)], [useState(true)]. *)
Definition start (rs : RS) : World RS :=
  {| service := rs; user := None; loading := true; mounted := true; trace := [] |}.

End Provider.
End AuthSession.

(** ** [AuthProvider]: the cleanup running while a call is pending

    [mounted] is a variable of the effect that its cleanup sets to false.  The
    cleanup can run while a request of the listener or of the session check
    is pending; [cleanup_during] says for which requests it does.  The two
    functions are those of [AuthContext] and [AuthSession], with that one
    difference at each [await]. *)

Module AuthUnmount.
Import AuthContext AuthSession.

Section Provider.
Context {RS : Type}.
Variable remote : forall r : Request, RS -> Await (Result (reply r)) * RS.
Variable cleanup_during : Request -> RS -> bool.

Definition await (r : Request) : M RS (Result (reply r)) :=
  fun w =>
    match AuthContext.await remote r w with
    | (c, w') => (c, if cleanup_during r (service w) then unmount w' else w')
    end.

Definition getProfile (id email : string) : M RS (option AppUser) :=
  res ← await (SelectProfile id);
  match error res with
  | Some e =>
      console ("Error fetching profile: " ++ message e)%string;;
      ret None
  | None =>
      match data res with
      | Some profile => ret (Some {| profile := profile; email := email |})
      | None => ret None
      end
  end.

Definition handleAuthEvent (event : string) (session : option SessionUser)
  : M RS unit :=
  try_finally
    (try_catch
       (if (String.eqb event "TOKEN_REFRESH_FAILED" || String.eqb event "SIGNED_OUT")%bool
        then
          try_catch (await SignOut;; mret tt)
            (fun _ => console "Error signing out after auth event:");;
          m ← getMounted;
          when m (setUser None)
        else
          match session with
          | Some su =>
              appUser ← getProfile (session_id su) (session_email su);
              m ← getMounted;
              when m (setUser appUser)
          | None =>
              m ← getMounted;
              when m (setUser None)
          end)
       (fun _ =>
          console "Auth listener error:";;
          m ← getMounted;
          when m
            (try_catch (await SignOut;; mret tt) (fun _ => ret tt);;
             setUser None)))
    (m ← getMounted; when m (setLoading false)).

Definition getInitialSession (session : Await (Result (option SessionUser)))
  : M RS unit :=
  try_finally
    (try_catch
       match session with
       | Rejected t => throw t
       | Fulfilled res =>
           match error res with
           | Some e =>
               console ("Error getting initial session: " ++ message e)%string;;
               if mentions_refresh_token (message e) then
                 try_catch (await SignOut;; mret tt) (fun _ => ret tt);;
                 m ← getMounted;
                 when m (setUser None)
               else ret tt
           | None =>
               match data res with
               | Some (Some su) =>
                   appUser ← getProfile (session_id su) (session_email su);
                   m ← getMounted;
                   when m (setUser appUser)
               | _ => ret tt
               end
           end
       end
       (fun _ =>
          console "Unexpected error getting initial session:";;
          try_catch (await SignOut;; mret tt) (fun _ => ret tt);;
          m ← getMounted;
          when m (setUser None)))
    (m ← getMounted; when m (setLoading false)).

End Provider.

(** The cleanup never runs during a call. *)
Definition never {RS} (r : Request) (rs : RS) : bool := false.

(** The cleanup runs while a sign-out request is pending. *)
Definition during_sign_out {RS} (r : Request) (rs : RS) : bool :=
  match r with
  | SignOut => true
  | _ => false
  end.

End AuthUnmount.

(** ** [Settings]

    The form keeps the five numbers being edited and the flags of the save
    button.  Only forms whose counts are integers (on which [Math.floor]
    changes nothing) and whose rating is a whole number of hundredths are
    represented; what [onSave] does to the flags and to [error] does not
    depend on more than the two range checks. *)

Module Settings.

Record Form := {
  portfolioViews : Z;
  followers : Z;
  rating : Z;
  loyaltyPoints : Z;
  projectsCompleted : Z;
  saving : bool;
  saved : bool;
  error : option string
}.

(** [useState] initial values. *)
Definition initial : Form :=
  {| portfolioViews := 0; followers := 0; rating := 0; loyaltyPoints := 0;
     projectsCompleted := 0; saving := false; saved := false; error := None |}.

Definition setError (v : option string) (f : Form) : Form :=
  {| portfolioViews := portfolioViews f; followers := followers f;
     rating := rating f; loyaltyPoints := loyaltyPoints f;
     projectsCompleted := projectsCompleted f;
     saving := saving f; saved := saved f; error := v |}.
Definition setSaving (v : bool) (f : Form) : Form :=
  {| portfolioViews := portfolioViews f; followers := followers f;
     rating := rating f; loyaltyPoints := loyaltyPoints f;
     projectsCompleted := projectsCompleted f;
     saving := v; saved := saved f; error := error f |}.
Definition setSaved (v : bool) (f : Form) : Form :=
  {| portfolioViews := portfolioViews f; followers := followers f;
     rating := rating f; loyaltyPoints := loyaltyPoints f;
     projectsCompleted := projectsCompleted f;
     saving := saving f; saved := v; error := error f |}.

(** The object literal passed to [updateStats]. *)
Definition submitted (f : Form) : UpdateUserStats.UpdateUserStatsInput :=
  {| UpdateUserStats.portfolio_views := Some (portfolioViews f);
     UpdateUserStats.followers := Some (followers f);
     UpdateUserStats.rating := Some (rating f);
     UpdateUserStats.loyalty_points := Some (loyaltyPoints f);
     UpdateUserStats.projects_completed := Some (projectsCompleted f) |}.

Section Remote.
Variable remote :
  UpdateUserStats.UpdateUserStatsInput -> string -> Await (Result UserStats.Row).

(** [onSave]; the boolean tells whether the three-second timer that resets
    [saved] was started. *)
Definition onSave (user_id : option string) (f : Form) : Form * bool :=
  if negb (truthy_string user_id) then (f, false)
  else if (rating f <? 0) || (500 <? rating f) then
    (setError (Some "Rating must be between 0 and 5") f, false)
  else if existsb (fun n => n <? 0)
            [portfolioViews f; followers f; loyaltyPoints f; projectsCompleted f] then
    (setError (Some "Values cannot be negative") f, false)
  else
    let f1 := setError None (setSaved false (setSaving true f)) in
    match UpdateUserStats.updateStats remote user_id (submitted f) with
    | Return _ => (setSaving false (setSaved true f1), true)
    | Throw err =>
        let message :=
          match err with
          | ThrownError msg => msg
          | ThrownValue _ => "Failed to save changes"
          end in
        (setSaving false (setError (Some message) f1), false)
    end.
End Remote.

(** The two checks of [onSave] on the numbers. *)
Definition valid (f : Form) : bool :=
  negb ((rating f <? 0) || (500 <? rating f))
  && negb (existsb (fun n => n <? 0)
             [portfolioViews f; followers f; loyaltyPoints f; projectsCompleted f]).

End Settings.

(** ** Counting events of the effect machine *)

Module Count.
Section Events.
Context {B Payload : Type}.

Fixpoint changes (es : list (LiveQuery.Event B Payload)) : nat :=
  match es with
  | [] => 0
  | LiveQuery.Change _ :: es' => S (changes es')
  | _ :: es' => changes es'
  end.

Fixpoint settled (es : list (LiveQuery.Event B Payload)) : nat :=
  match es with
  | [] => 0
  | LiveQuery.FetchDone _ _ :: es' => S (settled es')
  | _ :: es' => settled es'
  end.

End Events.
End Count.

(** * Properties *)

(** ** [slice] *)

Lemma relative_index_nonneg (len i : Z) :
  0 <= i -> relative_index len i = Z.min i len.
Proof.
  intros Hi. unfold relative_index.
  destruct (Z.ltb_spec i 0) as [Hlt|Hge]; [lia | reflexivity].
Qed.

Lemma slice_prefix {A} (l : list A) (n : Z) :
  0 <= n -> slice l 0 n = take (Z.to_nat n) l.
Proof.
  intros Hn. unfold slice.
  rewrite (relative_index_nonneg _ 0) by lia.
  rewrite (relative_index_nonneg _ n) by lia.
  replace (Z.min 0 (Z.of_nat (length l))) with 0 by lia.
  rewrite Z.sub_0_r. change (Z.to_nat 0) with 0%nat. rewrite drop_0.
  destruct (Z.le_ge_cases n (Z.of_nat (length l))) as [Hle|Hge].
  - rewrite Z.min_l by lia. reflexivity.
  - rewrite Z.min_r by lia. rewrite Nat2Z.id.
    rewrite !take_ge by lia. reflexivity.
Qed.

Lemma take_all_but_last {A} (l : list A) (n : nat) :
  length l = S n -> exists oldest, l = (take n l ++ [oldest])%list.
Proof.
  intros Hlen.
  destruct (drop n l) as [|x rest] eqn:Hdrop.
  - apply (f_equal length) in Hdrop. rewrite length_drop in Hdrop.
    simpl in Hdrop. lia.
  - assert (Hrest : rest = []).
    { apply (f_equal length) in Hdrop. rewrite length_drop in Hdrop.
      simpl in Hdrop. destruct rest; [reflexivity | simpl in Hdrop; lia]. }
    subst rest. exists x. rewrite <- Hdrop. symmetry. apply take_drop.
Qed.

(** ** The effect machine *)

Section EffectFacts.
Context {St Q B Resp Payload : Type}.
Variable no_identity : St -> St.
Variable query_for : string -> Q.
Variable respond : B -> Q -> Await Resp.
Variable fetch_done : Await Resp -> St -> St.
Variable on_change : Payload -> St -> St.
Variable refetch_on_change : bool.

Abbreviation step := (LiveQuery.step no_identity query_for respond fetch_done
                        on_change refetch_on_change).
Abbreviation run := (LiveQuery.run no_identity query_for respond fetch_done
                       on_change refetch_on_change).

(** A property kept by every step holds after every run. *)
Lemma run_preserves (P : LiveQuery.Inst St Q -> Prop) :
  (forall e i i', P i -> step e i = Some i' -> P i') ->
  forall es i i', P i -> run es i = Some i' -> P i'.
Proof.
  intros Hstep es. induction es as [|e es IH]; intros i i' HP Hrun.
  - simpl in Hrun. congruence.
  - simpl in Hrun. destruct (step e i) as [j|] eqn:Hj; [|discriminate].
    eapply IH; [|exact Hrun]. eapply Hstep; eauto.
Qed.

Lemma step_channel_owned e i i' :
  LiveQuery.channel_owned i -> step e i = Some i' -> LiveQuery.channel_owned i'.
Proof.
  unfold LiveQuery.channel_owned. intros Hown Hstep.
  destruct e as [u| |k b|p]; simpl in Hstep.
  - destruct (LiveQuery.channel i); [discriminate|].
    destruct (truthy_string u) eqn:Hu.
    + destruct u as [uid|]; [|discriminate].
      inversion Hstep; subst; simpl. intros _. eauto.
    + inversion Hstep; subst; simpl. discriminate.
  - destruct (LiveQuery.channel i); [|discriminate].
    inversion Hstep; subst; simpl. discriminate.
  - destruct (LiveQuery.inflight i !! k); [|discriminate].
    inversion Hstep; subst; simpl. exact Hown.
  - destruct (LiveQuery.channel i) eqn:Hc; [|discriminate].
    destruct (Hown eq_refl) as (uid & Hid & Hu).
    rewrite Hid in Hstep.
    destruct refetch_on_change; inversion Hstep; subst; simpl;
      intros _; exists uid; split; (reflexivity || assumption).
Qed.

Lemma run_channel_owned es s i :
  run es (LiveQuery.mount s) = Some i -> LiveQuery.channel_owned i.
Proof.
  apply (run_preserves LiveQuery.channel_owned).
  - intros e j j'. apply step_channel_owned.
  - unfold LiveQuery.channel_owned. simpl. discriminate.
Qed.

(** Once the cleanup has run, the channel delivers nothing. *)
Lemma change_needs_channel p i :
  LiveQuery.channel i = false -> step (LiveQuery.Change p) i = None.
Proof. intros Hc. simpl. rewrite Hc. reflexivity. Qed.

(** A pending query settles into the hook state whether or not the
    channel is still open: the fetch function looks at no flag. *)
Lemma fetch_done_any_channel k b q i :
  LiveQuery.inflight i !! k = Some q ->
  step (LiveQuery.FetchDone k b) i =
    Some {| LiveQuery.hook := fetch_done (respond b q) (LiveQuery.hook i);
            LiveQuery.identity := LiveQuery.identity i;
            LiveQuery.channel := LiveQuery.channel i;
            LiveQuery.inflight := delete k (LiveQuery.inflight i);
            LiveQuery.issued := LiveQuery.issued i |}.
Proof. intros Hq. simpl. rewrite Hq. reflexivity. Qed.

End EffectFacts.

(** ** [useUserStats] *)

Section UserStatsFacts.
Import UserStats.

Lemma fetchUserStats_error r s : error s = None -> error (fetchUserStats r s) = None.
Proof.
  intros He. destruct r as [res|t]; simpl; [|exact He].
  destruct (Supabase.error res); [reflexivity|].
  destruct (data res); exact He.
Qed.

Lemma stats_error_stays_null es i :
  run es useUserStats = Some i -> error (LiveQuery.hook i) = None.
Proof.
  unfold run, useUserStats.
  apply (run_preserves _ _ _ _ _ _ (fun j => error (LiveQuery.hook j) = None));
    [|reflexivity].
  intros e j j' Hj Hstep.
  destruct e as [u| |k b|p]; simpl in Hstep.
  - destruct (LiveQuery.channel j); [discriminate|].
    destruct (truthy_string u).
    + destruct u; [|discriminate]. inversion Hstep; subst; simpl. exact Hj.
    + inversion Hstep; subst; simpl. exact Hj.
  - destruct (LiveQuery.channel j); [|discriminate].
    inversion Hstep; subst; simpl. exact Hj.
  - destruct (LiveQuery.inflight j !! k); [|discriminate].
    inversion Hstep; subst; simpl. apply fetchUserStats_error, Hj.
  - destruct (LiveQuery.channel j); [|discriminate].
    inversion Hstep; subst; simpl. unfold on_change.
    destruct (new p); exact Hj.
Qed.

(** C1. Whatever events the stats hook has seen before (in particular
    none but the effect run for an identity), when a fetch ends with an error
    reported by the service or with a rejected promise, the hook state is the
    all-zero record, [loading] is false and [error] is [null]: this holds of
    the fetch function on any failed answer, and of the machine for any pending
    query the service fails to answer. *)
Theorem stats_fetch_failure_defaults es i :
  run es useUserStats = Some i ->
  (forall r : Await (Result Columns),
     fetch_failed r = true ->
     fetchUserStats r (LiveQuery.hook i) =
       {| stats := Some {| portfolio_views := 0; followers := 0; rating := 0;
                           loyalty_points := 0; projects_completed := 0 |};
          loading := false;
          error := None |}) /\
  (forall k uid b,
     LiveQuery.inflight i !! k = Some uid ->
     fetch_failed (respond b uid) = true ->
     step (LiveQuery.FetchDone k b) i =
       Some {| LiveQuery.hook :=
                 {| stats := Some {| portfolio_views := 0; followers := 0; rating := 0;
                                     loyalty_points := 0; projects_completed := 0 |};
                    loading := false;
                    error := None |};
               LiveQuery.identity := LiveQuery.identity i;
               LiveQuery.channel := LiveQuery.channel i;
               LiveQuery.inflight := delete k (LiveQuery.inflight i);
               LiveQuery.issued := LiveQuery.issued i |}).
Proof.
  intros Hrun. pose proof (stats_error_stays_null es i Hrun) as Herr.
  assert (Hfetch : forall r : Await (Result Columns),
             fetch_failed r = true ->
             fetchUserStats r (LiveQuery.hook i) =
               {| stats := Some zero_stats; loading := false; error := None |}).
  { intros r Hfail. destruct r as [res|t]; simpl in *.
    - destruct (Supabase.error res) as [e|] eqn:He.
      + reflexivity.
      + apply bool_decide_eq_true in Hfail. destruct Hfail as [e He']. discriminate.
    - unfold setLoading, setStats. simpl. rewrite Herr. reflexivity. }
  split; [exact Hfetch|].
  intros k uid b Hk Hfail. unfold step.
  rewrite (fetch_done_any_channel _ _ _ _ _ _ k b uid i Hk).
  rewrite (Hfetch _ Hfail). reflexivity.
Qed.

Lemma stats_fetch_failure_defaults_witness :
  run [LiveQuery.Activate (Some "u1")] useUserStats
    = Some {| LiveQuery.hook := initial; LiveQuery.identity := Some "u1";
              LiveQuery.channel := true; LiveQuery.inflight := ["u1"];
              LiveQuery.issued := 1 |} /\
  fetch_failed (respond (Down {| message := "permission denied" |}) "u1") = true /\
  fetchUserStats (respond (Down {| message := "permission denied" |}) "u1") initial =
    {| stats := Some {| portfolio_views := 0; followers := 0; rating := 0;
                        loyalty_points := 0; projects_completed := 0 |};
       loading := false;
       error := None |}.
Proof.
  split; [reflexivity|]. split; [reflexivity|].
  apply (proj1 (stats_fetch_failure_defaults [LiveQuery.Activate (Some "u1")]
                  {| LiveQuery.hook := initial; LiveQuery.identity := Some "u1";
                     LiveQuery.channel := true; LiveQuery.inflight := ["u1"];
                     LiveQuery.issued := 1 |} eq_refl)).
  reflexivity.
Defined.

(** The whole path through the machine, for any identity and either kind of
    failure. *)
Lemma stats_first_fetch_fails uid b :
  truthy_string (Some uid) = true ->
  fetch_failed (respond b uid) = true ->
  exists i,
    run [LiveQuery.Activate (Some uid); LiveQuery.FetchDone 0 b] useUserStats = Some i /\
    LiveQuery.hook i =
      {| stats := Some zero_stats; loading := false; error := None |}.
Proof.
  intros Hu Hfail. unfold run, useUserStats.
  cbn -[truthy_string respond]. rewrite Hu. cbn -[respond].
  eexists; split; [reflexivity|]. cbn -[respond].
  destruct (respond b uid) as [res|t]; simpl in *.
  - destruct (Supabase.error res) eqn:He; [reflexivity|].
    apply bool_decide_eq_true in Hfail. destruct Hfail as [e He']. discriminate.
  - reflexivity.
Qed.

End UserStatsFacts.

(** ** [useUserActivity] *)

Section UserActivityFacts.
Import UserActivity.

Lemma on_insert_activities limit s a :
  1 <= limit ->
  activities (on_insert limit {| new := Some a |} s)
    = a :: take (Z.to_nat (limit - 1)) (activities s).
Proof.
  intros Hl. unfold on_insert, setActivities. simpl.
  rewrite slice_prefix by lia. reflexivity.
Qed.

Lemma on_insert_within_cap limit s p :
  1 <= limit ->
  Z.of_nat (length (activities s)) <= limit ->
  Z.of_nat (length (activities (on_insert limit p s))) <= limit.
Proof.
  intros Hl Hlen. destruct p as [[a|]]; [|exact Hlen].
  rewrite on_insert_activities by exact Hl. simpl. rewrite length_take. lia.
Qed.

(** With a cap of at least one an insert event puts the new item first and
    keeps the first [limit - 1] items of the previous list, however long that
    list was: the result never has more than [limit] items, and when the list
    held exactly [limit] items the result has exactly [limit] and the item
    dropped is the last (oldest) one. *)
Lemma activity_insert_cap limit s a :
  1 <= limit ->
  activities (on_insert limit {| new := Some a |} s)
    = a :: take (Z.to_nat (limit - 1)) (activities s) /\
  Z.of_nat (length (activities (on_insert limit {| new := Some a |} s))) <= limit /\
  (Z.of_nat (length (activities s)) = limit ->
     Z.of_nat (length (activities (on_insert limit {| new := Some a |} s))) = limit /\
     exists oldest,
       activities s = (take (Z.to_nat (limit - 1)) (activities s) ++ [oldest])%list).
Proof.
  intros Hl. rewrite on_insert_activities by exact Hl.
  split; [reflexivity|]. split.
  - simpl. rewrite length_take. lia.
  - intros Hfull. split.
    + simpl. rewrite length_take. lia.
    + apply take_all_but_last. lia.
Qed.

(** C4 fails on the code for a cap of zero.  The query of the hook honours
    the cap ([limit(0)] stores no row), and the empty list holds exactly
    [limit = 0] items; the insert callback then stores the new row all the
    same, because [prev.slice(0, limit - 1)] is [prev.slice(0, -1)]: the list
    has one item under a cap of zero. *)
Theorem insert_overflows_zero_cap :
  activities (fetchUserActivity (respond (Up Sample.ten_activities) (query_for 0 "u1"))
                initial) = [] /\
  Z.of_nat (length (activities initial)) = 0 /\
  activities (on_insert 0 {| new := Some (Sample.activity "a11" "2024-03-11") |} initial)
    = [Sample.activity "a11" "2024-03-11"] /\
  ~ Z.of_nat (length (activities
       (on_insert 0 {| new := Some (Sample.activity "a11" "2024-03-11") |} initial))) <= 0 /\
  run 0 [LiveQuery.Activate (Some "u1");
         LiveQuery.FetchDone 0 (Up Sample.ten_activities);
         LiveQuery.Change {| new := Some (Sample.activity "a11" "2024-03-11") |}]
    useUserActivity
    = Some {| LiveQuery.hook :=
                {| activities := [Sample.activity "a11" "2024-03-11"];
                   loading := false; error := None |};
              LiveQuery.identity := Some "u1"; LiveQuery.channel := true;
              LiveQuery.inflight := []; LiveQuery.issued := 1 |}.
Proof.
  split; [reflexivity|]. split; [reflexivity|]. split; [reflexivity|].
  split; [simpl; lia|]. vm_compute. reflexivity.
Qed.

(** An event without [payload.new] changes nothing. *)
Lemma on_insert_without_new limit s : on_insert limit {| new := None |} s = s.
Proof. reflexivity. Qed.

Lemma select_within_limit q table rows :
  data (select q table) = Some rows -> Z.of_nat (length rows) <= Z.max 0 (q_limit q).
Proof.
  unfold select, ok. simpl. intros [= <-]. rewrite length_take. lia.
Qed.

Lemma fetchUserActivity_within_cap limit b q s :
  1 <= limit -> q_limit q = limit ->
  Z.of_nat (length (activities s)) <= limit ->
  Z.of_nat (length (activities (fetchUserActivity (respond b q) s))) <= limit.
Proof.
  intros Hl Hq Hs. destruct b as [table|e|t]; simpl.
  - rewrite length_take. lia.
  - lia.
  - lia.
Qed.

Lemma step_within_cap limit e i i' :
  1 <= limit -> within_cap limit i -> step limit e i = Some i' -> within_cap limit i'.
Proof.
  intros Hl [Hlen Hq] Hstep. unfold within_cap.
  destruct e as [u| |k b|p]; cbn -[respond fetchUserActivity on_insert] in Hstep.
  - destruct (LiveQuery.channel i); [discriminate|].
    destruct (truthy_string u).
    + destruct u as [uid|]; [|discriminate]. inversion Hstep; subst; simpl.
      split; [exact Hlen|]. apply Forall_app. split; [exact Hq|].
      constructor; [reflexivity|constructor].
    + inversion Hstep; subst; simpl. split; [lia|exact Hq].
  - destruct (LiveQuery.channel i); [|discriminate].
    inversion Hstep; subst; simpl. split; assumption.
  - destruct (LiveQuery.inflight i !! k) as [q|] eqn:Hk; [|discriminate].
    inversion Hstep; subst; cbn -[respond fetchUserActivity]. split.
    + apply fetchUserActivity_within_cap; [exact Hl| |exact Hlen].
      eapply Forall_lookup_1 in Hq; [exact Hq|exact Hk].
    + apply Forall_delete, Hq.
  - destruct (LiveQuery.channel i); [|discriminate].
    inversion Hstep; subst; cbn -[on_insert]. split; [|exact Hq].
    apply on_insert_within_cap; assumption.
Qed.

(** As long as every effect run uses the same cap, of at least one, the list
    never grows past it, whatever the service stores and whatever events
    arrive. *)
Lemma activities_never_exceed_cap limit es i :
  1 <= limit ->
  run limit es useUserActivity = Some i ->
  Z.of_nat (length (activities (LiveQuery.hook i))) <= limit.
Proof.
  intros Hl Hrun.
  enough (within_cap limit i) as [H _] by exact H.
  revert Hrun. apply (run_preserves _ _ _ _ _ _ (within_cap limit)).
  - intros e j j'. apply step_within_cap, Hl.
  - split; [simpl; lia|constructor].
Qed.

(** When the hook is called with a smaller cap, the effect runs again and the
    rows fetched under the old cap stay until the new query settles or an
    insert event arrives: ten rows under a cap of five, then five after an
    insert. *)
Lemma smaller_cap_keeps_rows_until_next_write :
  exists i j k,
    run 10 [LiveQuery.Activate (Some "u1");
            LiveQuery.FetchDone 0 (Up Sample.ten_activities)] useUserActivity = Some i /\
    run 5 [LiveQuery.Cleanup; LiveQuery.Activate (Some "u1")] i = Some j /\
    length (activities (LiveQuery.hook j)) = 10%nat /\
    run 5 [LiveQuery.Change {| new := Some (Sample.activity "a11" "2024-03-11") |}] j
      = Some k /\
    length (activities (LiveQuery.hook k)) = 5%nat.
Proof.
  do 3 eexists. split; [vm_compute; reflexivity|]. split; [vm_compute; reflexivity|].
  split; [reflexivity|]. split; [vm_compute; reflexivity|]. reflexivity.
Qed.

End UserActivityFacts.

(** ** [useChallenges] *)

Section ChallengesFacts.
Import Challenges.

Lemma select_capped_active uid table rows :
  data (select uid table) = Some rows ->
  (length rows <= 3)%nat /\
  Forall (fun c => status c = active /\ user_id c = uid /\ c ∈ table) rows.
Proof.
  unfold select, ok. simpl. intros [= <-]. split.
  - rewrite length_take. lia.
  - apply Forall_take, Forall_forall. intros c Hc.
    apply list_elem_of_filter in Hc as [Hactive Hc].
    apply list_elem_of_filter in Hc as [Huser Hc]. auto.
Qed.

Lemma drawn_from_mono (ids ids' : list string) i :
  ids ⊆ ids' -> drawn_from ids i -> drawn_from ids' i.
Proof.
  intros Hsub (Hlen & Hrows & Hq & Hch). repeat split.
  - exact Hlen.
  - eapply Forall_impl; [exact Hrows|]. intros c [Ha Hu]. split; auto.
  - eapply Forall_impl; [exact Hq|]. auto.
  - intros Hc. destruct (Hch Hc) as (uid & Hid & Hin). eauto.
Qed.

Lemma fetchChallenges_drawn_from (ids : list string) b uid s :
  uid ∈ ids ->
  (length (challenges s) <= 3)%nat ->
  Forall (fun c => status c = active /\ user_id c ∈ ids) (challenges s) ->
  (length (challenges (fetchChallenges (respond b uid) s)) <= 3)%nat /\
  Forall (fun c => status c = active /\ user_id c ∈ ids)
    (challenges (fetchChallenges (respond b uid) s)).
Proof.
  intros Hin Hlen Hrows. destruct b as [table|e|t].
  - destruct (select_capped_active uid table _ eq_refl) as [Hl Hf].
    split; [exact Hl|].
    eapply Forall_impl; [exact Hf|]. intros c (Ha & Hu & _).
    split; [exact Ha|]. rewrite Hu. exact Hin.
  - simpl. split; [lia|constructor].
  - simpl. split; [lia|constructor].
Qed.

Lemma step_drawn_from (ids : list string) e i i' :
  drawn_from ids i -> step e i = Some i' ->
  drawn_from (ids ++ LiveQuery.activated [e]) i'.
Proof.
  intros Hinv Hstep.
  destruct e as [u| |k b|p];
    cbn -[respond fetchChallenges truthy_string] in Hstep.
  - destruct Hinv as (Hlen & Hrows & Hq & Hch).
    destruct (LiveQuery.channel i); [discriminate|].
    destruct (truthy_string u) eqn:Hu.
    + destruct u as [uid|]; [|discriminate]. inversion Hstep; subst.
      cbn -[truthy_string]. rewrite Hu. repeat split; simpl.
      * exact Hlen.
      * eapply Forall_impl; [exact Hrows|]. intros c [Ha Hc].
        split; [exact Ha|]. apply elem_of_app. auto.
      * apply Forall_app. split.
        -- eapply Forall_impl; [exact Hq|]. intros x Hx. apply elem_of_app. auto.
        -- constructor; [|constructor]. apply elem_of_app. right. constructor.
      * intros _. exists uid. split; [reflexivity|].
        apply elem_of_app. right. constructor.
    + inversion Hstep; subst.
      apply drawn_from_mono with (ids := ids); [apply list_subseteq_app_l; reflexivity|].
      repeat split; simpl; [lia|constructor|exact Hq|discriminate].
  - apply drawn_from_mono with (ids := ids); [apply list_subseteq_app_l; reflexivity|].
    destruct Hinv as (Hlen & Hrows & Hq & Hch).
    destruct (LiveQuery.channel i); [|discriminate]. inversion Hstep; subst.
    repeat split; simpl; [exact Hlen|exact Hrows|exact Hq|discriminate].
  - apply drawn_from_mono with (ids := ids); [apply list_subseteq_app_l; reflexivity|].
    destruct Hinv as (Hlen & Hrows & Hq & Hch).
    destruct (LiveQuery.inflight i !! k) as [uid|] eqn:Hk; [|discriminate].
    inversion Hstep; subst.
    pose proof (Forall_lookup_1 _ _ _ _ Hq Hk) as Hin.
    destruct (fetchChallenges_drawn_from ids b uid (LiveQuery.hook i) Hin Hlen Hrows)
      as [Hl Hf].
    repeat split; cbn -[respond fetchChallenges];
      [exact Hl|exact Hf|apply Forall_delete, Hq|exact Hch].
  - apply drawn_from_mono with (ids := ids); [apply list_subseteq_app_l; reflexivity|].
    destruct Hinv as (Hlen & Hrows & Hq & Hch).
    destruct (LiveQuery.channel i) eqn:Hc; [|discriminate].
    destruct (Hch eq_refl) as (uid & Hid & Hin). rewrite Hid in Hstep.
    inversion Hstep; subst. repeat split; simpl.
    + exact Hlen.
    + exact Hrows.
    + apply Forall_app. split; [exact Hq|]. constructor; [exact Hin|constructor].
    + intros _. exists uid. split; [reflexivity|exact Hin].
Qed.

Lemma activated_cons e es :
  LiveQuery.activated (B := Backend Challenge) (Payload := Payload) (e :: es)
    = (LiveQuery.activated [e] ++ LiveQuery.activated es)%list.
Proof.
  destruct e as [[uid|]| |k b|p]; simpl; try reflexivity.
  destruct (negb (String.eqb uid "")); reflexivity.
Qed.

Lemma run_drawn_from es : forall (ids : list string) i i',
  drawn_from ids i -> run es i = Some i' ->
  drawn_from (ids ++ LiveQuery.activated es) i'.
Proof.
  induction es as [|e es IH]; intros ids i i' Hinv Hrun.
  - simpl in *. rewrite app_nil_r. congruence.
  - unfold run in Hrun. cbn [LiveQuery.run] in Hrun.
    destruct (LiveQuery.step _ _ _ _ _ _ e i) as [j|] eqn:Hj; [|discriminate].
    rewrite activated_cons, app_assoc.
    apply (IH _ j); [|exact Hrun]. apply step_drawn_from with (i := i); assumption.
Qed.

(** What a query for [uid] puts in the list, whatever the service does: at
    most three rows, each active and of [uid]. *)
Lemma fetchChallenges_result uid b s :
  (length (challenges (fetchChallenges (respond b uid) s)) <= 3)%nat /\
  Forall (fun c => status c = active /\ user_id c = uid)
    (challenges (fetchChallenges (respond b uid) s)).
Proof.
  destruct b as [table|e|t].
  - destruct (select_capped_active uid table _ eq_refl) as [Hl Hf].
    split; [exact Hl|].
    eapply Forall_impl; [exact Hf|]. intros c (Ha & Hu & _). auto.
  - simpl. split; [lia|constructor].
  - simpl. split; [lia|constructor].
Qed.

(** After any sequence of events on the challenges hook: the list
    holds at most three rows; each row is active and belongs to an identity an
    effect has queried for (so to the current identity when only one has been
    active); while the channel is open every event, whatever its kind, starts
    exactly one more query, for the identity of the effect, and writes no state
    itself; and what that query puts in the list when it settles is at most
    three rows, each active and of that identity. *)
Theorem challenges_refetch_capped_active es i :
  run es useChallenges = Some i ->
  (length (challenges (LiveQuery.hook i)) <= 3)%nat /\
  Forall (fun c => status c = active /\ user_id c ∈ LiveQuery.activated es)
    (challenges (LiveQuery.hook i)) /\
  (forall u, Forall (fun v => v = u) (LiveQuery.activated es) ->
     Forall (fun c => user_id c = u) (challenges (LiveQuery.hook i))) /\
  (forall p, LiveQuery.channel i = true ->
     exists uid,
       LiveQuery.identity i = Some uid /\
       step (LiveQuery.Change p) i =
         Some {| LiveQuery.hook := LiveQuery.hook i;
                 LiveQuery.identity := Some uid;
                 LiveQuery.channel := true;
                 LiveQuery.inflight := (LiveQuery.inflight i ++ [uid])%list;
                 LiveQuery.issued := S (LiveQuery.issued i) |} /\
       forall b s,
         (length (challenges (fetchChallenges (respond b uid) s)) <= 3)%nat /\
         Forall (fun c => status c = active /\ user_id c = uid)
           (challenges (fetchChallenges (respond b uid) s))).
Proof.
  intros Hrun.
  assert (Hinit : drawn_from [] useChallenges).
  { repeat split; simpl; [lia|constructor|constructor|discriminate]. }
  destruct (run_drawn_from es [] useChallenges i Hinit Hrun)
    as (Hlen & Hrows & _ & Hch).
  rewrite app_nil_l in Hrows, Hch.
  split; [exact Hlen|]. split; [exact Hrows|]. split.
  - intros u Hu. eapply Forall_impl; [exact Hrows|]. intros c [_ Hc].
    rewrite Forall_forall in Hu. apply Hu, Hc.
  - intros p Hc. destruct (Hch Hc) as (uid & Hid & _).
    exists uid. split; [exact Hid|]. split.
    + unfold step. simpl. rewrite Hc, Hid. reflexivity.
    + intros b s. apply fetchChallenges_result.
Qed.

Lemma challenges_refetch_capped_active_witness :
  run [LiveQuery.Activate (Some "u1");
       LiveQuery.FetchDone 0 (Up Sample.challenge_table);
       LiveQuery.Change UPDATE] useChallenges
    = Some {| LiveQuery.hook :=
                {| challenges := [ Sample.challenge "u1" "c1" active;
                                   Sample.challenge "u1" "c4" active;
                                   Sample.challenge "u1" "c5" active ];
                   loading := false; error := None |};
              LiveQuery.identity := Some "u1"; LiveQuery.channel := true;
              LiveQuery.inflight := ["u1"]; LiveQuery.issued := 2 |} /\
  (length [ Sample.challenge "u1" "c1" active; Sample.challenge "u1" "c4" active;
            Sample.challenge "u1" "c5" active ] <= 3)%nat.
Proof.
  split; [reflexivity|].
  apply (challenges_refetch_capped_active
           [LiveQuery.Activate (Some "u1");
            LiveQuery.FetchDone 0 (Up Sample.challenge_table);
            LiveQuery.Change UPDATE]
           {| LiveQuery.hook :=
                {| challenges := [ Sample.challenge "u1" "c1" active;
                                   Sample.challenge "u1" "c4" active;
                                   Sample.challenge "u1" "c5" active ];
                   loading := false; error := None |};
              LiveQuery.identity := Some "u1"; LiveQuery.channel := true;
              LiveQuery.inflight := ["u1"]; LiveQuery.issued := 2 |}).
  reflexivity.
Defined.

(** C7 fails on the code, by the defect of C2.  An event arrives while the
    effect of [u1] is active and starts its one re-fetch; the identity changes
    (cleanup, then the effect of [u2], or no identity at all) and the re-fetch
    of [u1] settles afterwards: [fetchChallenges] checks nothing and stores
    the rows of [u1].  The list still has at most three rows, all active, but
    they are not rows of the current identity. *)
Theorem stale_refetch_shows_previous_identity :
  run [LiveQuery.Activate (Some "u1");
       LiveQuery.FetchDone 0 (Up Sample.challenge_table);
       LiveQuery.Change UPDATE;
       LiveQuery.Cleanup;
       LiveQuery.Activate (Some "u2");
       LiveQuery.FetchDone 1 (Up Sample.challenge_table);
       LiveQuery.FetchDone 0 (Up Sample.challenge_table)] useChallenges
    = Some {| LiveQuery.hook :=
                {| challenges := [ Sample.challenge "u1" "c1" active;
                                   Sample.challenge "u1" "c4" active;
                                   Sample.challenge "u1" "c5" active ];
                   loading := false; error := None |};
              LiveQuery.identity := Some "u2"; LiveQuery.channel := true;
              LiveQuery.inflight := []; LiveQuery.issued := 3 |} /\
  run [LiveQuery.Activate (Some "u1");
       LiveQuery.FetchDone 0 (Up Sample.challenge_table);
       LiveQuery.Change UPDATE;
       LiveQuery.Cleanup;
       LiveQuery.Activate (Some "u2");
       LiveQuery.FetchDone 1 (Up Sample.challenge_table)] useChallenges
    = Some {| LiveQuery.hook :=
                {| challenges := [ Sample.challenge "u2" "c2" active ];
                   loading := false; error := None |};
              LiveQuery.identity := Some "u2"; LiveQuery.channel := true;
              LiveQuery.inflight := ["u1"]; LiveQuery.issued := 3 |} /\
  run [LiveQuery.Activate (Some "u1");
       LiveQuery.FetchDone 0 (Up Sample.challenge_table);
       LiveQuery.Change DELETE;
       LiveQuery.Cleanup;
       LiveQuery.Activate None] useChallenges
    = Some {| LiveQuery.hook :=
                {| challenges := []; loading := false; error := None |};
              LiveQuery.identity := None; LiveQuery.channel := false;
              LiveQuery.inflight := ["u1"]; LiveQuery.issued := 2 |} /\
  run [LiveQuery.Activate (Some "u1");
       LiveQuery.FetchDone 0 (Up Sample.challenge_table);
       LiveQuery.Change DELETE;
       LiveQuery.Cleanup;
       LiveQuery.Activate None;
       LiveQuery.FetchDone 0 (Up Sample.challenge_table)] useChallenges
    = Some {| LiveQuery.hook :=
                {| challenges := [ Sample.challenge "u1" "c1" active;
                                   Sample.challenge "u1" "c4" active;
                                   Sample.challenge "u1" "c5" active ];
                   loading := false; error := None |};
              LiveQuery.identity := None; LiveQuery.channel := false;
              LiveQuery.inflight := []; LiveQuery.issued := 2 |}.
Proof. repeat split; vm_compute; reflexivity. Qed.

End ChallengesFacts.

(** ** Teardown *)

Section TeardownFacts.

(** After the cleanup no channel event reaches any of the three hooks. *)
Lemma no_change_after_cleanup :
  (forall es i p, UserStats.run es UserStats.useUserStats = Some i ->
     LiveQuery.channel i = false -> UserStats.step (LiveQuery.Change p) i = None) /\
  (forall limit es i p,
     UserActivity.run limit es UserActivity.useUserActivity = Some i ->
     LiveQuery.channel i = false ->
     UserActivity.step limit (LiveQuery.Change p) i = None) /\
  (forall es i p, Challenges.run es Challenges.useChallenges = Some i ->
     LiveQuery.channel i = false -> Challenges.step (LiveQuery.Change p) i = None).
Proof.
  repeat split; intros; apply change_needs_channel; assumption.
Qed.

(** C2 fails on the code.  In each hook the effect for identity [u1] runs,
    its cleanup runs, and then the query started by that effect settles: the
    hook state is written all the same ([loading] goes to false and the data
    of [u1] is stored).  In the last case a new effect for [u2] is already
    active when the query of [u1] settles, and the list of [u1] is what the
    hook shows. *)
Theorem stale_fetch_writes_after_cleanup :
  UserStats.run
    [LiveQuery.Activate (Some "u1"); LiveQuery.Cleanup] UserStats.useUserStats
    = Some {| LiveQuery.hook := UserStats.initial;
              LiveQuery.identity := Some "u1"; LiveQuery.channel := false;
              LiveQuery.inflight := ["u1"]; LiveQuery.issued := 1 |} /\
  UserStats.run
    [LiveQuery.Activate (Some "u1"); LiveQuery.Cleanup;
     LiveQuery.FetchDone 0 (Up [Sample.stats_row "u1" 42])] UserStats.useUserStats
    = Some {| LiveQuery.hook :=
                {| UserStats.stats :=
                     Some {| UserStats.portfolio_views := 42;
                             UserStats.followers := 7;
                             UserStats.rating := 450;
                             UserStats.loyalty_points := 0;
                             UserStats.projects_completed := 3 |};
                   UserStats.loading := false; UserStats.error := None |};
              LiveQuery.identity := Some "u1"; LiveQuery.channel := false;
              LiveQuery.inflight := []; LiveQuery.issued := 1 |} /\
  UserActivity.run 10
    [LiveQuery.Activate (Some "u1"); LiveQuery.Cleanup;
     LiveQuery.FetchDone 0 (Up [Sample.activity "a01" "2024-03-01"])]
    UserActivity.useUserActivity
    = Some {| LiveQuery.hook :=
                {| UserActivity.activities := [Sample.activity "a01" "2024-03-01"];
                   UserActivity.loading := false; UserActivity.error := None |};
              LiveQuery.identity := Some "u1"; LiveQuery.channel := false;
              LiveQuery.inflight := []; LiveQuery.issued := 1 |} /\
  Challenges.run
    [LiveQuery.Activate (Some "u1"); LiveQuery.Cleanup;
     LiveQuery.FetchDone 0 (Up [Sample.challenge "u1" "c1" Challenges.active])]
    Challenges.useChallenges
    = Some {| LiveQuery.hook :=
                {| Challenges.challenges := [Sample.challenge "u1" "c1" Challenges.active];
                   Challenges.loading := false; Challenges.error := None |};
              LiveQuery.identity := Some "u1"; LiveQuery.channel := false;
              LiveQuery.inflight := []; LiveQuery.issued := 1 |} /\
  UserActivity.run 10
    [LiveQuery.Activate (Some "u1"); LiveQuery.Cleanup;
     LiveQuery.Activate (Some "u2");
     LiveQuery.FetchDone 1 (Up [Sample.activity "a01" "2024-03-01"]);
     LiveQuery.FetchDone 0 (Up [Sample.activity "a01" "2024-03-01"])]
    UserActivity.useUserActivity
    = Some {| LiveQuery.hook :=
                {| UserActivity.activities := [Sample.activity "a01" "2024-03-01"];
                   UserActivity.loading := false; UserActivity.error := None |};
              LiveQuery.identity := Some "u2"; LiveQuery.channel := true;
              LiveQuery.inflight := []; LiveQuery.issued := 2 |}.
Proof. repeat split; vm_compute; reflexivity. Qed.

End TeardownFacts.

(** ** [useUpdateUserStats] *)

Section UpdateUserStatsFacts.
Import UpdateUserStats.

Lemma or_string_nonempty s d : s <> "" -> or_string s d = s.
Proof.
  intros Hs. unfold or_string. destruct (String.eqb_spec s ""); congruence.
Qed.

(** C5. [updateStats] throws "User not authenticated" without an identity.
    With one: when the service answers with an error the call throws an
    [Error] whose message is the message of the service (or "Failed to update
    stats" when that message is empty); when the request itself is rejected it
    throws an [Error] carrying the message of what was thrown, or "Unknown
    error"; otherwise it returns the row the service sent back.  So a failure
    always reaches the caller as a thrown [Error]. *)
Theorem updateStats_outcomes remote user_id updates :
  (truthy_string user_id = false ->
     updateStats remote user_id updates = Throw (ThrownError "User not authenticated")) /\
  (forall uid, user_id = Some uid -> truthy_string user_id = true ->
     match remote updates uid with
     | Fulfilled res =>
         match error res with
         | Some e =>
             updateStats remote user_id updates
               = Throw (ThrownError (or_string (message e) "Failed to update stats")) /\
             (message e <> "" ->
                updateStats remote user_id updates = Throw (ThrownError (message e)))
         | None => updateStats remote user_id updates = Return (data res)
         end
     | Rejected t =>
         updateStats remote user_id updates
           = Throw (ThrownError match t with
                                | ThrownError msg => msg
                                | ThrownValue _ => "Unknown error"
                                end)
     end).
Proof.
  split.
  - intros Hu. unfold updateStats. destruct user_id as [uid|]; [|reflexivity].
    rewrite Hu. reflexivity.
  - intros uid -> Hu. unfold updateStats. rewrite Hu.
    destruct (remote updates uid) as [res|t]; simpl.
    + destruct (error res) as [e|]; simpl; [|reflexivity].
      split; [reflexivity|]. intros Hm. rewrite or_string_nonempty by exact Hm.
      reflexivity.
    + destruct t; reflexivity.
Qed.

Lemma updateStats_outcomes_witness :
  updateStats (Sample.stats_remote Sample.Healthy) None (Sample.followers_only 42)
    = Throw (ThrownError "User not authenticated") /\
  updateStats (Sample.stats_remote (Sample.Erroring "row not found")) (Some "u1")
      (Sample.followers_only 42)
    = Throw (ThrownError "row not found") /\
  updateStats (Sample.stats_remote (Sample.Throwing (ThrownValue "offline"))) (Some "u1")
      (Sample.followers_only 42)
    = Throw (ThrownError "Unknown error") /\
  updateStats (Sample.stats_remote Sample.Healthy) (Some "u1") (Sample.followers_only 42)
    = Return (Some (Sample.stats_row "u1" 42)).
Proof.
  split; [|split; [|split]].
  - apply (updateStats_outcomes (Sample.stats_remote Sample.Healthy) None
             (Sample.followers_only 42)). reflexivity.
  - apply (proj2 (updateStats_outcomes
                    (Sample.stats_remote (Sample.Erroring "row not found")) (Some "u1")
                    (Sample.followers_only 42)) "u1" eq_refl eq_refl).
    discriminate.
  - exact (proj2 (updateStats_outcomes
                    (Sample.stats_remote (Sample.Throwing (ThrownValue "offline")))
                    (Some "u1") (Sample.followers_only 42)) "u1" eq_refl eq_refl).
  - exact (proj2 (updateStats_outcomes (Sample.stats_remote Sample.Healthy)
                    (Some "u1") (Sample.followers_only 42)) "u1" eq_refl eq_refl).
Defined.

(** No failure is dropped: whenever the service reports an error or the
    request is rejected, the call throws. *)
Lemma updateStats_failure_thrown remote uid updates :
  truthy_string (Some uid) = true ->
  fetch_failed (remote updates uid) = true ->
  exists msg, updateStats remote (Some uid) updates = Throw (ThrownError msg).
Proof.
  intros Hu Hf. unfold updateStats. rewrite Hu.
  destruct (remote updates uid) as [res|t]; simpl in *.
  - destruct (error res) as [e|]; simpl; [eauto|].
    apply bool_decide_eq_true in Hf. destruct Hf as [e He]. discriminate.
  - destruct t; eauto.
Qed.

End UpdateUserStatsFacts.

(** ** [AuthProvider] *)

Section AuthFacts.
Import AuthContext.
Context {RS : Type}.
Variable remote : forall r : Request, RS -> Await (Result (reply r)) * RS.

Ltac run_auth :=
  unfold mbind, M_bind, mret, M_ret, bind, ret, throw, await, setUser, setLoading,
    getUser, getMounted, alert, console, sleep, emit, when, try_catch, try_finally,
    answered in *;
  cbn [service user loading mounted trace fst snd reply] in *.

Lemma getProfile_answered id email w res rs :
  remote (SelectProfile id) (service w) = (Fulfilled res, rs) ->
  fst (getProfile remote id email w) = Return (resolved res email) /\
  user (snd (getProfile remote id email w)) = user w /\
  loading (snd (getProfile remote id email w)) = loading w.
Proof.
  intros Hsel. unfold getProfile, resolved. run_auth. rewrite Hsel.
  destruct (error res) as [e|]; [repeat split|].
  destruct (data res); repeat split.
Qed.

Lemma getProfile_keeps_user id email w :
  user (snd (getProfile remote id email w)) = user w.
Proof.
  unfold getProfile. run_auth.
  destruct (remote (SelectProfile id) (service w)) as [[res|t] rs]; [|reflexivity].
  run_auth. destruct (error res) as [e|]; [reflexivity|].
  destruct (data res); reflexivity.
Qed.

(** *** [signOut] *)

Lemma signOut_answered w res rs :
  remote SignOut (service w) = (Fulfilled res, rs) ->
  signOut remote w =
    (Return tt,
     {| service := rs; user := None; loading := loading w; mounted := mounted w;
        trace := trace w ++ [Called SignOut] |}).
Proof. intros H. unfold signOut. run_auth. rewrite H. reflexivity. Qed.

Lemma signOut_rejected w t rs :
  remote SignOut (service w) = (Rejected t, rs) ->
  signOut remote w =
    (Throw t,
     {| service := rs; user := user w; loading := loading w; mounted := mounted w;
        trace := trace w ++ [Called SignOut] |}).
Proof. intros H. unfold signOut. run_auth. rewrite H. reflexivity. Qed.

(** The listener clears the identity on a sign-out event even when the call
    to the auth service is rejected. *)
Lemma handleAuthEvent_signed_out session w :
  mounted w = true ->
  fst (handleAuthEvent remote "SIGNED_OUT" session w) = Return tt /\
  user (snd (handleAuthEvent remote "SIGNED_OUT" session w)) = None.
Proof.
  intros Hm. unfold handleAuthEvent.
  change (String.eqb "SIGNED_OUT" "TOKEN_REFRESH_FAILED" || String.eqb "SIGNED_OUT" "SIGNED_OUT")%bool
    with true.
  run_auth.
  destruct (remote SignOut (service w)) as [[res|t] rs]; cbn;
    repeat (rewrite Hm; cbn); split; reflexivity.
Qed.

(** Once unmounted, the listener writes neither the identity nor [loading]:
    each write is guarded by the [mounted] flag. *)
Lemma handleAuthEvent_after_unmount event session w :
  mounted w = false ->
  user (snd (handleAuthEvent remote event session w)) = user w /\
  loading (snd (handleAuthEvent remote event session w)) = loading w.
Proof.
  intros Hm. unfold handleAuthEvent, getProfile.
  destruct (String.eqb event "TOKEN_REFRESH_FAILED" || String.eqb event "SIGNED_OUT")%bool.
  - run_auth.
    destruct (remote SignOut (service w)) as [[res|t] rs]; cbn;
      repeat (rewrite Hm; cbn); split; reflexivity.
  - destruct session as [su|]; run_auth.
    + destruct (remote (SelectProfile (session_id su)) (service w)) as [[res|t] rs];
        run_auth.
      * destruct (error res); cbn; [|destruct (data res); cbn];
          repeat (rewrite Hm; cbn); split; reflexivity.
      * repeat (rewrite Hm; cbn); split; reflexivity.
    + repeat (rewrite Hm; cbn); split; reflexivity.
Qed.

(** *** [signIn] and [signUp] *)

(** C3, as the code has it.  Whenever the auth service answers a [signIn]
    with an error, the message is shown with [alert], the call returns
    normally with no value, the identity is untouched and [loading] ends
    false; and the same, on its own, for every [signUp] the service answers
    with an error. *)
Theorem auth_errors_alerted w :
  (forall email password res e rs,
     remote (SignInWithPassword email password) (service w) = (Fulfilled res, rs) ->
     error res = Some e ->
     signIn remote email password w =
       (Return tt,
        {| service := rs; user := user w; loading := false; mounted := mounted w;
           trace := trace w ++ [Called (SignInWithPassword email password);
                                Alerted (message e)] |})) /\
  (forall userData res e rs,
     remote (SignUp (su_email userData) (su_password userData) (su_name userData)
               (su_accountType userData)) (service w) = (Fulfilled res, rs) ->
     error res = Some e ->
     signUp remote userData w =
       (Return tt,
        {| service := rs; user := user w; loading := false; mounted := mounted w;
           trace := trace w ++ [Called (SignUp (su_email userData) (su_password userData)
                                          (su_name userData) (su_accountType userData));
                                Alerted (message e)] |})).
Proof.
  split.
  - intros email password res e rs H He.
    unfold signIn. run_auth. rewrite H, He. cbn.
    rewrite <- app_assoc. reflexivity.
  - intros userData res e rs H He.
    unfold signUp. run_auth. rewrite H, He. cbn.
    rewrite <- app_assoc. reflexivity.
Qed.

(** Neither call writes the identity, however the service answers. *)
Lemma signIn_keeps_user email password w :
  user (snd (signIn remote email password w)) = user w.
Proof.
  unfold signIn. run_auth.
  destruct (remote (SignInWithPassword email password) (service w)) as [[res|t] rs];
    [|reflexivity].
  run_auth. destruct (error res); reflexivity.
Qed.

Lemma signUp_keeps_user userData w :
  user (snd (signUp remote userData w)) = user w.
Proof.
  unfold signUp. run_auth.
  destruct (remote _ (service w)) as [[res|t] rs]; [|reflexivity].
  run_auth. destruct (error res); [reflexivity|].
  destruct (data res) as [d|]; [|reflexivity].
  destruct (su_user d); reflexivity.
Qed.

(** *** [updateUser] *)

(** C8. Without an identity [updateUser] does nothing.  With identity [u]
    its first request is the update of [userData] on the row whose [id] is
    [u.id]; when the service answers that update with an error the identity
    stays [u]; when it answers without error the identity becomes what
    [getProfile] makes of the row then read back from the service (with the
    email of [u]), not anything taken from [userData]. *)
Theorem updateUser_refetches userData w :
  (user w = None -> updateUser remote userData w = (Return tt, w)) /\
  (forall u, user w = Some u ->
     (exists rest,
        trace (snd (updateUser remote userData w))
          = (trace w ++ Called (UpdateProfile userData (id (profile u))) :: rest)%list) /\
     (forall res rs,
        remote (UpdateProfile userData (id (profile u))) (service w)
          = (Fulfilled res, rs) ->
        match error res with
        | Some e =>
            fst (updateUser remote userData w) = Return tt /\
            user (snd (updateUser remote userData w)) = Some u
        | None =>
            forall res' rs',
              remote (SelectProfile (id (profile u))) rs = (Fulfilled res', rs') ->
              fst (updateUser remote userData w) = Return tt /\
              user (snd (updateUser remote userData w)) = resolved res' (email u)
        end)).
Proof.
  split.
  - intros Hu. unfold updateUser. run_auth. rewrite Hu. reflexivity.
  - intros u Hu. split.
    + unfold updateUser, getProfile. run_auth. rewrite Hu.
      destruct (remote (UpdateProfile userData (id (profile u))) (service w))
        as [[res|t] rs]; run_auth; [|exists []; reflexivity].
      destruct (error res) as [e|]; cbn.
      * eexists. rewrite <- app_assoc. reflexivity.
      * destruct (remote (SelectProfile (id (profile u))) rs) as [[res'|t'] rs'];
          run_auth.
        -- destruct (error res'); cbn; [|destruct (data res'); cbn];
             eexists; rewrite <- ?app_assoc; reflexivity.
        -- eexists. rewrite <- app_assoc. reflexivity.
    + intros res rs Hupd. unfold updateUser, getProfile, resolved. run_auth.
      rewrite Hu, Hupd. cbn.
      destruct (error res) as [e|]; cbn.
      * split; [reflexivity|exact Hu].
      * intros res' rs' Hsel. rewrite Hsel. cbn.
        destruct (error res'); cbn; [split; reflexivity|].
        destruct (data res'); split; reflexivity.
Qed.

(** C10. When the update is answered without error and [getProfile] then
    returns [null], [updateUser] ends normally and the identity is [null]. *)
Theorem updateUser_refetch_null_signs_out userData w u res rs :
  user w = Some u ->
  remote (UpdateProfile userData (id (profile u))) (service w) = (Fulfilled res, rs) ->
  error res = None ->
  fst (getProfile remote (id (profile u)) (email u)
         (answered (UpdateProfile userData (id (profile u))) rs w)) = Return None ->
  fst (updateUser remote userData w) = Return tt /\
  user (snd (updateUser remote userData w)) = None.
Proof.
  intros Hu Hupd He Hget. unfold updateUser. run_auth.
  rewrite Hu, Hupd, He.
  destruct (getProfile remote (id (profile u)) (email u) _) as [[o|t] w'] eqn:Hg;
    cbn in Hget; [|discriminate].
  inversion Hget; subst. split; reflexivity.
Qed.

(** *** [switchRole] *)

Lemma toggle_flips r : toggle r <> r.
Proof. destruct r; unfold toggle; simpl; discriminate. Qed.

Lemma toggle_agree r a : toggle r = toggle a <-> r = a.
Proof. destruct r, a; unfold toggle; simpl; split; congruence. Qed.

(** C9, as the code has it.  With identity [u], [switchRole] is the call
    of [updateUser] with [role] and [account_type] each flipped on its own
    (creator to member, member to creator); the two values submitted are equal
    exactly when the two fields of [u] were equal. *)
Theorem switchRole_flips_each w u :
  user w = Some u ->
  switchRole remote w =
    updateUser remote
      (role_fields (toggle (role (profile u))) (toggle (account_type (profile u)))) w /\
  toggle (role (profile u)) <> role (profile u) /\
  toggle (account_type (profile u)) <> account_type (profile u) /\
  (toggle (role (profile u)) = toggle (account_type (profile u))
     <-> role (profile u) = account_type (profile u)).
Proof.
  intros Hu. split.
  - unfold switchRole. unfold mbind at 1, M_bind at 1, bind at 1, getUser at 1.
    rewrite Hu. reflexivity.
  - split; [apply toggle_flips|]. split; [apply toggle_flips|]. apply toggle_agree.
Qed.

Lemma switchRole_without_user w :
  user w = None -> switchRole remote w = (Return tt, w).
Proof. intros Hu. unfold switchRole. run_auth. rewrite Hu. reflexivity. Qed.

End AuthFacts.

(** ** The provider on the in-memory service *)

Section AuthExamples.
Import AuthContext Sample.

Lemma auth_errors_alerted_witness :
  signIn serve "ada@example.org" "wrong"
    (world_of (service_of (Erroring "Invalid login credentials") Healthy Healthy) None)
    = (Return tt,
       {| service := service_of (Erroring "Invalid login credentials") Healthy Healthy;
          user := None; loading := false; mounted := true;
          trace := [Called (SignInWithPassword "ada@example.org" "wrong");
                    Alerted "Invalid login credentials"] |}) /\
  signUp serve {| su_email := "ada@example.org"; su_password := "pw";
                  su_name := "Ada"; su_accountType := "creator" |}
    (world_of (service_of (Erroring "User already registered") Healthy Healthy)
       (Some bob_user))
    = (Return tt,
       {| service := service_of (Erroring "User already registered") Healthy Healthy;
          user := Some bob_user; loading := false; mounted := true;
          trace := [Called (SignUp "ada@example.org" "pw" "Ada" "creator");
                    Alerted "User already registered"] |}).
Proof.
  split.
  - exact (proj1 (auth_errors_alerted serve
                    (world_of (service_of (Erroring "Invalid login credentials")
                                 Healthy Healthy) None))
             "ada@example.org" "wrong"
             (failed {| message := "Invalid login credentials" |})
             {| message := "Invalid login credentials" |}
             (service_of (Erroring "Invalid login credentials") Healthy Healthy)
             eq_refl eq_refl).
  - exact (proj2 (auth_errors_alerted serve
                    (world_of (service_of (Erroring "User already registered")
                                 Healthy Healthy) (Some bob_user)))
             {| su_email := "ada@example.org"; su_password := "pw";
                su_name := "Ada"; su_accountType := "creator" |}
             (failed {| message := "User already registered" |})
             {| message := "User already registered" |}
             (service_of (Erroring "User already registered") Healthy Healthy)
             eq_refl eq_refl).
Defined.

(** C3 as stated fails: when the auth service answers with an error,
    [signIn] and [signUp] end for their caller exactly as a successful call
    does, with a normal return of no value; nothing is thrown. *)
Lemma auth_error_not_returned_to_caller :
  fst (signIn serve "ada@example.org" "wrong"
         (world_of (service_of (Erroring "Invalid login credentials") Healthy Healthy)
            None)) = Return tt /\
  fst (signIn serve "ada@example.org" "right"
         (world_of (service_of Healthy Healthy Healthy) None)) = Return tt /\
  fst (signUp serve {| su_email := "ada@example.org"; su_password := "pw";
                       su_name := "Ada"; su_accountType := "creator" |}
         (world_of (service_of (Erroring "User already registered") Healthy Healthy)
            None)) = Return tt /\
  ~ (exists t,
       fst (signIn serve "ada@example.org" "wrong"
              (world_of (service_of (Erroring "Invalid login credentials") Healthy Healthy)
                 None)) = Throw t).
Proof.
  split; [reflexivity|]. split; [reflexivity|]. split; [reflexivity|].
  intros [t Ht]. vm_compute in Ht. discriminate.
Qed.

(** C6 fails on the code when the call to the auth service is rejected:
    [signOut] ends by throwing and the identity is still the one signed in. *)
Theorem signOut_rejected_keeps_identity :
  signOut serve
    (world_of (service_of (Throwing (ThrownError "Failed to fetch")) Healthy Healthy)
       (Some ada_user))
    = (Throw (ThrownError "Failed to fetch"),
       {| service := service_of (Throwing (ThrownError "Failed to fetch")) Healthy Healthy;
          user := Some ada_user; loading := false; mounted := true;
          trace := [Called SignOut] |}).
Proof. reflexivity. Qed.

(** The same rejected call inside the auth listener: the identity is cleared. *)
Lemma listener_clears_identity_when_rejected :
  handleAuthEvent serve "SIGNED_OUT" None
    (world_of (service_of (Throwing (ThrownError "Failed to fetch")) Healthy Healthy)
       (Some ada_user))
    = (Return tt,
       {| service := service_of (Throwing (ThrownError "Failed to fetch")) Healthy Healthy;
          user := None; loading := false; mounted := true;
          trace := [Called SignOut; Logged "Error signing out after auth event:"] |}).
Proof. reflexivity. Qed.

Lemma updateUser_refetches_witness :
  user (world_of (service_of Healthy Healthy Healthy) (Some ada_user)) = Some ada_user /\
  fst (updateUser serve (rename "Ada L.")
         (world_of (service_of Healthy Healthy Healthy) (Some ada_user))) = Return tt /\
  user (snd (updateUser serve (rename "Ada L.")
               (world_of (service_of Healthy Healthy Healthy) (Some ada_user))))
    = Some {| profile := patch (rename "Ada L.") ada; email := "ada@example.org" |}.
Proof.
  split; [reflexivity|].
  destruct (proj2 (updateUser_refetches serve (rename "Ada L.")
                     (world_of (service_of Healthy Healthy Healthy) (Some ada_user)))
              ada_user eq_refl) as [_ H].
  specialize (H _ _ eq_refl). cbn in H.
  exact (H _ _ eq_refl).
Defined.

Lemma updateUser_refetch_null_signs_out_witness :
  user (world_of (service_of Healthy Healthy (Erroring "connection lost"))
          (Some ada_user)) = Some ada_user /\
  fst (updateUser serve (rename "Ada L.")
         (world_of (service_of Healthy Healthy (Erroring "connection lost"))
            (Some ada_user))) = Return tt /\
  user (snd (updateUser serve (rename "Ada L.")
               (world_of (service_of Healthy Healthy (Erroring "connection lost"))
                  (Some ada_user)))) = None.
Proof.
  split; [reflexivity|].
  apply (updateUser_refetch_null_signs_out serve (rename "Ada L.")
           (world_of (service_of Healthy Healthy (Erroring "connection lost"))
              (Some ada_user))
           ada_user {| data := None; error := None |}
           {| auth := Healthy; writes := Healthy; reads := Erroring "connection lost";
              profiles := [patch (rename "Ada L.") ada; bob] |});
    reflexivity.
Defined.

Lemma switchRole_flips_each_witness :
  user (world_of (service_of Healthy Healthy Healthy) (Some ada_user)) = Some ada_user /\
  switchRole serve (world_of (service_of Healthy Healthy Healthy) (Some ada_user))
    = updateUser serve (role_fields member member)
        (world_of (service_of Healthy Healthy Healthy) (Some ada_user)).
Proof.
  split; [reflexivity|].
  apply (switchRole_flips_each serve
           (world_of (service_of Healthy Healthy Healthy) (Some ada_user)) ada_user).
  reflexivity.
Defined.

(** C9 as stated fails for an identity whose [role] and [account_type]
    differ: the update submitted has [role] member and [account_type] creator,
    and so has the identity read back afterwards. *)
Lemma switchRole_uncoupled :
  role bob = creator /\ account_type bob = member /\
  trace (snd (switchRole serve
                (world_of (service_of Healthy Healthy Healthy) (Some bob_user))))
    = [Called (UpdateProfile (role_fields member creator) "u2");
       Called (SelectProfile "u2")] /\
  set_role (role_fields member creator) <> set_account_type (role_fields member creator) /\
  (exists u,
     user (snd (switchRole serve
                  (world_of (service_of Healthy Healthy Healthy) (Some bob_user))))
       = Some u /\
     role (profile u) = member /\ account_type (profile u) = creator).
Proof.
  split; [reflexivity|]. split; [reflexivity|]. split; [reflexivity|].
  split; [discriminate|].
  eexists. split; [vm_compute; reflexivity|]. split; reflexivity.
Qed.

(** An identity with differing [role] and [account_type] arises from the
    provider itself: [updateUser] with [role] alone. *)
Lemma uncoupled_identity_reachable :
  exists u,
    user (snd (updateUser serve (role_only member)
                 (world_of (service_of Healthy Healthy Healthy) (Some ada_user))))
      = Some u /\
    role (profile u) = member /\ account_type (profile u) = creator.
Proof. eexists. split; [vm_compute; reflexivity|]. split; reflexivity. Qed.

End AuthExamples.

(** * Further properties of the hooks *)

Section EffectAccounting.
Context {St Q B Resp Payload : Type}.
Variable no_identity : St -> St.
Variable query_for : string -> Q.
Variable respond : B -> Q -> Await Resp.
Variable fetch_done : Await Resp -> St -> St.
Variable on_change : Payload -> St -> St.
Variable refetch_on_change : bool.

Abbreviation mstep := (LiveQuery.step no_identity query_for respond fetch_done
                         on_change refetch_on_change).
Abbreviation mrun := (LiveQuery.run no_identity query_for respond fetch_done
                        on_change refetch_on_change).

(** A property of the hook state kept by the three writers is kept by runs. *)
Lemma run_preserves_hook (P : St -> Prop) :
  (forall s, P s -> P (no_identity s)) ->
  (forall b q s, P s -> P (fetch_done (respond b q) s)) ->
  (forall p s, P s -> P (on_change p s)) ->
  forall es i i', P (LiveQuery.hook i) -> mrun es i = Some i' -> P (LiveQuery.hook i').
Proof.
  intros Hno Hfetch Hchange es i i' HP.
  apply (run_preserves _ _ _ _ _ _ (fun j => P (LiveQuery.hook j))); [|exact HP].
  clear i i' HP. intros e i i' HP Hstep.
  destruct e as [u| |k b|p]; simpl in Hstep.
  - destruct (LiveQuery.channel i); [discriminate|].
    destruct (truthy_string u).
    + destruct u; [|discriminate]. inversion Hstep; subst; simpl. exact HP.
    + inversion Hstep; subst; simpl. auto.
  - destruct (LiveQuery.channel i); [|discriminate].
    inversion Hstep; subst; simpl. exact HP.
  - destruct (LiveQuery.inflight i !! k); [|discriminate].
    inversion Hstep; subst; simpl. auto.
  - destruct (LiveQuery.channel i); [|discriminate].
    destruct refetch_on_change.
    + destruct (LiveQuery.identity i); [|discriminate].
      inversion Hstep; subst; simpl. auto.
    + inversion Hstep; subst; simpl. auto.
Qed.

Lemma step_accounting e i i' :
  mstep e i = Some i' ->
  LiveQuery.issued i' =
    (LiveQuery.issued i + length (LiveQuery.activated [e])
     + (if refetch_on_change then Count.changes [e] else 0))%nat /\
  (length (LiveQuery.inflight i') + Count.settled [e])%nat =
    (length (LiveQuery.inflight i) + (LiveQuery.issued i' - LiveQuery.issued i))%nat.
Proof.
  intros Hstep. destruct e as [u| |k b|p]; cbn -[truthy_string] in Hstep |- *.
  - destruct (LiveQuery.channel i); [discriminate|].
    destruct u as [uid|].
    + destruct (truthy_string (Some uid)); inversion Hstep; subst; simpl;
        rewrite ?length_app; simpl; destruct refetch_on_change; lia.
    + simpl in Hstep. inversion Hstep; subst; simpl.
      destruct refetch_on_change; lia.
  - destruct (LiveQuery.channel i); [|discriminate].
    inversion Hstep; subst; simpl. destruct refetch_on_change; lia.
  - destruct (LiveQuery.inflight i !! k) as [q|] eqn:Hk; [|discriminate].
    inversion Hstep; subst; simpl.
    rewrite length_delete by eauto.
    apply lookup_lt_Some in Hk. destruct refetch_on_change; lia.
  - destruct (LiveQuery.channel i); [|discriminate].
    destruct refetch_on_change.
    + destruct (LiveQuery.identity i); [|discriminate].
      inversion Hstep; subst; simpl. rewrite length_app. simpl. lia.
    + inversion Hstep; subst; simpl. lia.
Qed.

Lemma activated_app_one (e : LiveQuery.Event B Payload) es :
  LiveQuery.activated (e :: es)
    = (LiveQuery.activated [e] ++ LiveQuery.activated es)%list.
Proof.
  destruct e as [[uid|]| |k b|p]; simpl; try reflexivity.
  destruct (negb (String.eqb uid "")); reflexivity.
Qed.

Lemma changes_cons (e : LiveQuery.Event B Payload) es :
  Count.changes (e :: es) = (Count.changes [e] + Count.changes es)%nat.
Proof. destruct e; reflexivity. Qed.

Lemma settled_cons (e : LiveQuery.Event B Payload) es :
  Count.settled (e :: es) = (Count.settled [e] + Count.settled es)%nat.
Proof. destruct e; reflexivity. Qed.

Lemma run_accounting es : forall i i',
  mrun es i = Some i' ->
  LiveQuery.issued i' =
    (LiveQuery.issued i + length (LiveQuery.activated es)
     + (if refetch_on_change then Count.changes es else 0))%nat /\
  (length (LiveQuery.inflight i') + Count.settled es)%nat =
    (length (LiveQuery.inflight i) + (LiveQuery.issued i' - LiveQuery.issued i))%nat.
Proof.
  induction es as [|e es IH]; intros i i' Hrun.
  - simpl in Hrun. inversion Hrun; subst. simpl.
    destruct refetch_on_change; lia.
  - cbn [LiveQuery.run] in Hrun.
    destruct (mstep e i) as [j|] eqn:Hj; [|discriminate].
    destruct (step_accounting e i j Hj) as [H1 H2].
    destruct (IH j i' Hrun) as [H3 H4].
    rewrite activated_app_one, length_app, changes_cons, settled_cons.
    destruct refetch_on_change; lia.
Qed.

End EffectAccounting.

Section HookExtras.

Lemma activity_error_stays_null limit es i :
  UserActivity.run limit es UserActivity.useUserActivity = Some i ->
  UserActivity.error (LiveQuery.hook i) = None.
Proof.
  unfold UserActivity.run, UserActivity.useUserActivity.
  apply (run_preserves_hook _ _ _ _ _ _ (fun s => UserActivity.error s = None));
    [| | |reflexivity].
  - intros s Hs. exact Hs.
  - intros b q s Hs. destruct b as [table|e|t]; simpl; auto.
  - intros p s Hs. unfold UserActivity.on_insert.
    destruct (UserActivity.new p); exact Hs.
Qed.

Lemma challenges_error_stays_null es i :
  Challenges.run es Challenges.useChallenges = Some i ->
  Challenges.error (LiveQuery.hook i) = None.
Proof.
  unfold Challenges.run, Challenges.useChallenges.
  apply (run_preserves_hook _ _ _ _ _ _ (fun s => Challenges.error s = None));
    [| | |reflexivity].
  - intros s Hs. exact Hs.
  - intros b q s Hs. destruct b as [table|e|t]; simpl; auto.
  - intros p s Hs. exact Hs.
Qed.

(** X1. None of the three hooks ever exposes an error: after any sequence
    of effect runs, cleanups, settled queries and channel events, [error] is
    [null]. *)
Theorem hooks_never_expose_error es1 i1 limit es2 i2 es3 i3 :
  UserStats.run es1 UserStats.useUserStats = Some i1 ->
  UserActivity.run limit es2 UserActivity.useUserActivity = Some i2 ->
  Challenges.run es3 Challenges.useChallenges = Some i3 ->
  UserStats.error (LiveQuery.hook i1) = None /\
  UserActivity.error (LiveQuery.hook i2) = None /\
  Challenges.error (LiveQuery.hook i3) = None.
Proof.
  intros H1 H2 H3. split; [|split].
  - exact (stats_error_stays_null es1 i1 H1).
  - exact (activity_error_stays_null limit es2 i2 H2).
  - exact (challenges_error_stays_null es3 i3 H3).
Qed.

Lemma hooks_never_expose_error_witness :
  exists i1 i2 i3,
    UserStats.run [LiveQuery.Activate (Some "u1");
                   LiveQuery.FetchDone 0 (Down {| message := "permission denied" |})]
      UserStats.useUserStats = Some i1 /\
    UserActivity.run 10 [LiveQuery.Activate (Some "u1");
                         LiveQuery.FetchDone 0 (Broken (ThrownError "Failed to fetch"))]
      UserActivity.useUserActivity = Some i2 /\
    Challenges.run [LiveQuery.Activate (Some "u1");
                    LiveQuery.FetchDone 0 (Down {| message := "timeout" |})]
      Challenges.useChallenges = Some i3 /\
    UserStats.error (LiveQuery.hook i1) = None /\
    UserActivity.error (LiveQuery.hook i2) = None /\
    Challenges.error (LiveQuery.hook i3) = None.
Proof.
  do 3 eexists. split; [reflexivity|]. split; [reflexivity|]. split; [reflexivity|].
  eapply (hooks_never_expose_error
            [LiveQuery.Activate (Some "u1");
             LiveQuery.FetchDone 0 (Down {| message := "permission denied" |})] _
            10 [LiveQuery.Activate (Some "u1");
                LiveQuery.FetchDone 0 (Broken (ThrownError "Failed to fetch"))] _
            [LiveQuery.Activate (Some "u1");
             LiveQuery.FetchDone 0 (Down {| message := "timeout" |})] _);
    reflexivity.
Defined.

(** X2. Nothing sets [loading] back to true: once it is false in a hook it
    is false after every later event, also after the effect has run again for
    another identity and while the query of that identity is pending. *)
Theorem loading_stays_false es1 i1 j1 limit es2 i2 j2 es3 i3 j3 :
  UserStats.loading (LiveQuery.hook i1) = false ->
  UserStats.run es1 i1 = Some j1 ->
  UserActivity.loading (LiveQuery.hook i2) = false ->
  UserActivity.run limit es2 i2 = Some j2 ->
  Challenges.loading (LiveQuery.hook i3) = false ->
  Challenges.run es3 i3 = Some j3 ->
  UserStats.loading (LiveQuery.hook j1) = false /\
  UserActivity.loading (LiveQuery.hook j2) = false /\
  Challenges.loading (LiveQuery.hook j3) = false.
Proof.
  intros L1 R1 L2 R2 L3 R3. split; [|split].
  - revert R1. unfold UserStats.run.
    apply (run_preserves_hook _ _ _ _ _ _ (fun s => UserStats.loading s = false));
      [| | |exact L1].
    + reflexivity.
    + intros b q s _. destruct (UserStats.respond b q) as [res|t]; simpl; [|reflexivity].
      destruct (Supabase.error res); [reflexivity|].
      destruct (data res); reflexivity.
    + intros p s Hs. unfold UserStats.on_change. destruct (UserStats.new p); exact Hs.
  - revert R2. unfold UserActivity.run.
    apply (run_preserves_hook _ _ _ _ _ _ (fun s => UserActivity.loading s = false));
      [| | |exact L2].
    + reflexivity.
    + intros b q s _. destruct b; reflexivity.
    + intros p s Hs. unfold UserActivity.on_insert.
      destruct (UserActivity.new p); exact Hs.
  - revert R3. unfold Challenges.run.
    apply (run_preserves_hook _ _ _ _ _ _ (fun s => Challenges.loading s = false));
      [| | |exact L3].
    + reflexivity.
    + intros b q s _. destruct b; reflexivity.
    + intros p s Hs. exact Hs.
Qed.

Lemma loading_stays_false_witness :
  exists j1 j2 j3,
    UserStats.run [LiveQuery.Activate (Some "u2")]
      (LiveQuery.mount (UserStats.no_identity UserStats.initial)) = Some j1 /\
    UserActivity.run 10 [LiveQuery.Activate (Some "u2")]
      (LiveQuery.mount (UserActivity.no_identity UserActivity.initial)) = Some j2 /\
    Challenges.run [LiveQuery.Activate (Some "u2")]
      (LiveQuery.mount (Challenges.no_identity Challenges.initial)) = Some j3 /\
    LiveQuery.inflight j1 = ["u2"] /\
    UserStats.loading (LiveQuery.hook j1) = false /\
    UserActivity.loading (LiveQuery.hook j2) = false /\
    Challenges.loading (LiveQuery.hook j3) = false.
Proof.
  do 3 eexists. split; [reflexivity|]. split; [reflexivity|]. split; [reflexivity|].
  split; [reflexivity|].
  eapply (loading_stays_false [LiveQuery.Activate (Some "u2")]
            (LiveQuery.mount (UserStats.no_identity UserStats.initial)) _
            10 [LiveQuery.Activate (Some "u2")]
            (LiveQuery.mount (UserActivity.no_identity UserActivity.initial)) _
            [LiveQuery.Activate (Some "u2")]
            (LiveQuery.mount (Challenges.no_identity Challenges.initial)) _);
    reflexivity.
Defined.

(** X3. In the stats hook, when [loading] is false [stats] is not [null]:
    every path that ends the loading has stored a record (the fetched row with
    zeros filled in, or the all-zero record). *)
Theorem stats_loaded_not_null es i :
  UserStats.run es UserStats.useUserStats = Some i ->
  UserStats.loading (LiveQuery.hook i) = false ->
  exists v, UserStats.stats (LiveQuery.hook i) = Some v.
Proof.
  unfold UserStats.run, UserStats.useUserStats.
  apply (run_preserves_hook _ _ _ _ _ _
           (fun s => UserStats.loading s = false -> exists v, UserStats.stats s = Some v)).
  - intros s _ _. simpl. eauto.
  - intros b q s _ _. destruct b as [table|e|t]; simpl; eauto.
    unfold UserStats.select.
    destruct (filter (fun r => UserStats.user_id r = q) table) as [|r [|r' rest]];
      simpl; eauto.
  - intros p s Hs Hl. unfold UserStats.on_change in *.
    destruct (UserStats.new p); simpl in *; eauto.
  - simpl. discriminate.
Qed.

Lemma stats_loaded_not_null_witness :
  exists i,
    UserStats.run [LiveQuery.Activate (Some "u1");
                   LiveQuery.FetchDone 0 (Up [Sample.stats_row "u2" 5])]
      UserStats.useUserStats = Some i /\
    UserStats.loading (LiveQuery.hook i) = false /\
    exists v, UserStats.stats (LiveQuery.hook i) = Some v.
Proof.
  eexists. split; [reflexivity|]. split; [reflexivity|].
  eapply (stats_loaded_not_null
            [LiveQuery.Activate (Some "u1");
             LiveQuery.FetchDone 0 (Up [Sample.stats_row "u2" 5])]);
    reflexivity.
Defined.

(** X4. The two list hooks degrade like the stats hook: in any reachable
    state, a query that ends with an error of the service or with a rejected
    promise leaves the empty list, [loading] false and [error] [null]. *)
Theorem list_fetch_failure_empty limit es2 i2 es3 i3
    (r2 : Await (Result (list UserActivity.UserActivity)))
    (r3 : Await (Result (list Challenges.Challenge))) :
  UserActivity.run limit es2 UserActivity.useUserActivity = Some i2 ->
  Challenges.run es3 Challenges.useChallenges = Some i3 ->
  fetch_failed r2 = true ->
  fetch_failed r3 = true ->
  UserActivity.fetchUserActivity r2 (LiveQuery.hook i2) =
    {| UserActivity.activities := []; UserActivity.loading := false;
       UserActivity.error := None |} /\
  Challenges.fetchChallenges r3 (LiveQuery.hook i3) =
    {| Challenges.challenges := []; Challenges.loading := false;
       Challenges.error := None |}.
Proof.
  intros R2 R3 F2 F3.
  pose proof (activity_error_stays_null limit es2 i2 R2) as E2.
  pose proof (challenges_error_stays_null es3 i3 R3) as E3.
  split.
  - destruct r2 as [res|t]; simpl in *.
    + destruct (Supabase.error res) eqn:He; [reflexivity|].
      apply bool_decide_eq_true in F2. destruct F2 as [e He']. discriminate.
    + unfold UserActivity.setLoading, UserActivity.setActivities. simpl.
      rewrite E2. reflexivity.
  - destruct r3 as [res|t]; simpl in *.
    + destruct (Supabase.error res) eqn:He; [reflexivity|].
      apply bool_decide_eq_true in F3. destruct F3 as [e He']. discriminate.
    + unfold Challenges.setLoading, Challenges.setChallenges. simpl.
      rewrite E3. reflexivity.
Qed.

Lemma list_fetch_failure_empty_witness :
  exists i2 i3,
    UserActivity.run 10 [LiveQuery.Activate (Some "u1");
                         LiveQuery.FetchDone 0 (Up Sample.ten_activities);
                         LiveQuery.Cleanup; LiveQuery.Activate (Some "u1")]
      UserActivity.useUserActivity = Some i2 /\
    Challenges.run [LiveQuery.Activate (Some "u1");
                    LiveQuery.FetchDone 0 (Up Sample.challenge_table);
                    LiveQuery.Change Challenges.DELETE]
      Challenges.useChallenges = Some i3 /\
    length (UserActivity.activities (LiveQuery.hook i2)) = 10%nat /\
    UserActivity.fetchUserActivity
      (UserActivity.respond (Down {| message := "timeout" |})
         (UserActivity.query_for 10 "u1")) (LiveQuery.hook i2) =
      {| UserActivity.activities := []; UserActivity.loading := false;
         UserActivity.error := None |} /\
    Challenges.fetchChallenges
      (Challenges.respond (Broken (ThrownValue "offline")) "u1") (LiveQuery.hook i3) =
      {| Challenges.challenges := []; Challenges.loading := false;
         Challenges.error := None |}.
Proof.
  do 2 eexists. split; [vm_compute; reflexivity|]. split; [vm_compute; reflexivity|].
  split; [reflexivity|].
  eapply (list_fetch_failure_empty 10
            [LiveQuery.Activate (Some "u1");
             LiveQuery.FetchDone 0 (Up Sample.ten_activities);
             LiveQuery.Cleanup; LiveQuery.Activate (Some "u1")] _
            [LiveQuery.Activate (Some "u1");
             LiveQuery.FetchDone 0 (Up Sample.challenge_table);
             LiveQuery.Change Challenges.DELETE] _);
    vm_compute; reflexivity.
Defined.

End HookExtras.

Section ActivityExtras.
Import UserActivity.

Lemma relative_index_range (len i : Z) :
  0 <= len -> 0 <= relative_index len i <= len.
Proof.
  intros Hlen. unfold relative_index. destruct (Z.ltb_spec i 0); lia.
Qed.

Lemma slice_from_start {A} (l : list A) (stop : Z) :
  slice l 0 stop = take (Z.to_nat (relative_index (Z.of_nat (length l)) stop)) l.
Proof.
  unfold slice.
  assert (H0 : relative_index (Z.of_nat (length l)) 0 = 0).
  { unfold relative_index. simpl. lia. }
  rewrite H0, Z.sub_0_r. reflexivity.
Qed.

(** X5. For every cap, also zero and negative ones, an insert event puts
    the new row first and keeps a prefix of the previous list, in its order:
    the first [limit - 1] rows when the cap is at least one, and otherwise all
    rows but the last [1 - limit] (so at least the new row is always there). *)
Theorem activity_insert_any_limit limit s a :
  exists kept dropped,
    activities s = (kept ++ dropped)%list /\
    activities (on_insert limit {| new := Some a |} s) = a :: kept /\
    Z.of_nat (length kept) =
      if 1 <=? limit
      then Z.min (limit - 1) (Z.of_nat (length (activities s)))
      else Z.max 0 (Z.of_nat (length (activities s)) - (1 - limit)).
Proof.
  exists (slice (activities s) 0 (limit - 1)),
         (drop (Z.to_nat (relative_index (Z.of_nat (length (activities s))) (limit - 1)))
            (activities s)).
  unfold on_insert, setActivities. cbn [new activities].
  rewrite !slice_from_start. split; [symmetry; apply take_drop|].
  split; [reflexivity|].
  pose proof (relative_index_range (Z.of_nat (length (activities s))) (limit - 1)
                ltac:(lia)) as Hr.
  rewrite length_take. unfold relative_index in *.
  destruct (Z.leb_spec 1 limit); destruct (Z.ltb_spec (limit - 1) 0); lia.
Qed.

Lemma Sorted_take {A} (R : relation A) n (l : list A) :
  Sorted R l -> Sorted R (take n l).
Proof.
  revert n. induction l as [|x l IH]; intros [|n] Hs; simpl; try constructor.
  - apply IH. inversion Hs; assumption.
  - inversion Hs as [|? ? _ Hhd]; subst.
    destruct l as [|y l]; destruct n; simpl; constructor.
    inversion Hhd; assumption.
Qed.

#[local] Instance newer_first_total : Total newer_first.
Proof.
  intros a b. unfold newer_first.
  destruct (String.leb_total (created_at b) (created_at a)) as [H|H];
    rewrite H; simpl; auto.
Qed.

(** X6. What a fetch stores when the service answers, whatever the table
    holds: rows of that table belonging to the identity, newest first, no more
    than the cap (none for a cap below one); when the identity has no more rows
    than the cap, all of them. *)
Theorem activity_fetch_stores_query_result limit uid table s :
  Forall (fun r => user_id r = uid /\ r ∈ table)
    (activities (fetchUserActivity (respond (Up table) (query_for limit uid)) s)) /\
  Sorted newer_first
    (activities (fetchUserActivity (respond (Up table) (query_for limit uid)) s)) /\
  Z.of_nat (length
    (activities (fetchUserActivity (respond (Up table) (query_for limit uid)) s)))
    = Z.min (Z.max 0 limit)
        (Z.of_nat (length (filter (fun r => user_id r = uid) table))) /\
  (Z.of_nat (length (filter (fun r => user_id r = uid) table)) <= limit ->
   activities (fetchUserActivity (respond (Up table) (query_for limit uid)) s)
     ≡ₚ filter (fun r => user_id r = uid) table) /\
  loading (fetchUserActivity (respond (Up table) (query_for limit uid)) s) = false.
Proof.
  simpl. repeat split.
  - apply Forall_take, Forall_forall. intros r Hr.
    rewrite merge_sort_Permutation in Hr.
    apply list_elem_of_filter in Hr. exact Hr.
  - apply Sorted_take, Sorted_merge_sort. apply _.
  - rewrite length_take, merge_sort_Permutation. lia.
  - intros Hle. rewrite take_ge.
    + apply merge_sort_Permutation.
    + rewrite merge_sort_Permutation. lia.
Qed.

Lemma activity_fetch_stores_query_result_witness :
  Z.of_nat (length (filter (fun r => user_id r = "u1") Sample.ten_activities)) <= 10 /\
  activities (fetchUserActivity (respond (Up Sample.ten_activities) (query_for 10 "u1"))
                initial)
    ≡ₚ filter (fun r => user_id r = "u1") Sample.ten_activities.
Proof.
  split; [vm_compute; discriminate|].
  apply (activity_fetch_stores_query_result 10 "u1" Sample.ten_activities initial).
  vm_compute. discriminate.
Defined.

End ActivityExtras.

Section AccountingExtras.

(** X7. How many queries a hook starts: the stats and activity hooks start
    one per effect run with an identity and none on channel events; the
    challenges hook starts one per effect run with an identity and one more per
    channel event.  Each query started is still pending or has settled once. *)
Theorem hooks_query_accounting es1 i1 limit es2 i2 es3 i3 :
  UserStats.run es1 UserStats.useUserStats = Some i1 ->
  UserActivity.run limit es2 UserActivity.useUserActivity = Some i2 ->
  Challenges.run es3 Challenges.useChallenges = Some i3 ->
  (LiveQuery.issued i1 = length (LiveQuery.activated es1) /\
   (length (LiveQuery.inflight i1) + Count.settled es1)%nat = LiveQuery.issued i1) /\
  (LiveQuery.issued i2 = length (LiveQuery.activated es2) /\
   (length (LiveQuery.inflight i2) + Count.settled es2)%nat = LiveQuery.issued i2) /\
  (LiveQuery.issued i3 = (length (LiveQuery.activated es3) + Count.changes es3)%nat /\
   (length (LiveQuery.inflight i3) + Count.settled es3)%nat = LiveQuery.issued i3).
Proof.
  intros R1 R2 R3.
  apply run_accounting in R1. apply run_accounting in R2. apply run_accounting in R3.
  simpl in R1, R2, R3. lia.
Qed.

Lemma hooks_query_accounting_witness :
  exists i1 i2 i3,
    UserStats.run [LiveQuery.Activate (Some "u1");
                   LiveQuery.Change {| UserStats.new := None |};
                   LiveQuery.FetchDone 0 (Up [Sample.stats_row "u1" 42])]
      UserStats.useUserStats = Some i1 /\
    UserActivity.run 10 [LiveQuery.Activate None; LiveQuery.Activate (Some "u1");
                         LiveQuery.Change
                           {| UserActivity.new := Some (Sample.activity "a11" "2024-03-11") |}]
      UserActivity.useUserActivity = Some i2 /\
    Challenges.run [LiveQuery.Activate (Some "u1"); LiveQuery.Change Challenges.INSERT;
                    LiveQuery.Change Challenges.DELETE;
                    LiveQuery.FetchDone 1 (Up Sample.challenge_table)]
      Challenges.useChallenges = Some i3 /\
    LiveQuery.issued i1 = 1%nat /\ LiveQuery.issued i2 = 1%nat /\
    LiveQuery.issued i3 = 3%nat /\ length (LiveQuery.inflight i3) = 2%nat.
Proof.
  do 3 eexists. split; [reflexivity|]. split; [reflexivity|].
  split; [vm_compute; reflexivity|].
  destruct (hooks_query_accounting
              [LiveQuery.Activate (Some "u1");
               LiveQuery.Change {| UserStats.new := None |};
               LiveQuery.FetchDone 0 (Up [Sample.stats_row "u1" 42])] _
              10 [LiveQuery.Activate None; LiveQuery.Activate (Some "u1");
                  LiveQuery.Change
                    {| UserActivity.new := Some (Sample.activity "a11" "2024-03-11") |}] _
              [LiveQuery.Activate (Some "u1"); LiveQuery.Change Challenges.INSERT;
               LiveQuery.Change Challenges.DELETE;
               LiveQuery.FetchDone 1 (Up Sample.challenge_table)] _
              eq_refl eq_refl eq_refl) as ((A1 & _) & (A2 & _) & (A3 & B3)).
  split; [exact A1|]. split; [exact A2|]. split; [exact A3|].
  simpl in B3 |- *. lia.
Defined.

End AccountingExtras.

(** * Further properties of the provider *)

Section AuthExtras.
Import AuthContext AuthSession.
Context {RS : Type}.
Variable remote : forall r : Request, RS -> Await (Result (reply r)) * RS.

Ltac auth_unfold :=
  unfold handleAuthEvent, getInitialSession, signIn, signUp, signOut,
    updateUser, getProfile, when, alert, console, sleep, mbind, M_bind, mret, M_ret, bind, ret,
    throw, await, setUser, setLoading, getUser, getMounted, emit, try_catch,
    try_finally, answered in *;
  cbn [service user loading mounted trace fst snd reply] in *.

Ltac auth_case :=
  match goal with
  | |- context [remote ?r ?s] => destruct (remote r s) as [[?res|?t] ?rs]
  | |- context [match @error ?D ?r with _ => _ end] => destruct (@error D r)
  | |- context [match @data ?D ?r with _ => _ end] => destruct (@data D r)
  | |- context [if mounted ?w then _ else _] => is_var w; destruct (mounted w)
  | |- context [match su_user ?d with _ => _ end] => destruct (su_user d)
  end;
  cbn in *.

Lemma requests_app t1 t2 : requests (t1 ++ t2) = (requests t1 ++ requests t2)%list.
Proof.
  induction t1 as [|x t1 IH]; [reflexivity|].
  destruct x; simpl; rewrite IH; reflexivity.
Qed.

(** X8. The auth listener never throws, whatever the event, the session and
    the answers of the service; it leaves [mounted] alone, and it ends with
    [loading] false exactly when the provider is still mounted. *)
Theorem handleAuthEvent_always_settles event session w :
  fst (handleAuthEvent remote event session w) = Return tt /\
  mounted (snd (handleAuthEvent remote event session w)) = mounted w /\
  loading (snd (handleAuthEvent remote event session w))
    = (if mounted w then false else loading w).
Proof.
  destruct w as [sv u ld [|] tr]; auth_unfold;
    (destruct (String.eqb event "TOKEN_REFRESH_FAILED" || String.eqb event "SIGNED_OUT")%bool;
     [|destruct session as [su|]]);
    cbn; repeat auth_case; repeat split; reflexivity.
Qed.

(** X9. The initial session check never throws either, leaves [mounted]
    alone, and ends with [loading] false exactly when the provider is still
    mounted. *)
Theorem getInitialSession_always_settles session w :
  fst (getInitialSession remote session w) = Return tt /\
  mounted (snd (getInitialSession remote session w)) = mounted w /\
  loading (snd (getInitialSession remote session w))
    = (if mounted w then false else loading w).
Proof.
  destruct w as [sv u ld [|] tr]; auth_unfold;
    (destruct session as [res|t];
     [destruct (error res) as [e|];
      [destruct (mentions_refresh_token (message e))|destruct (data res) as [[su|]|]]|]);
    cbn; repeat auth_case; repeat split; reflexivity.
Qed.

(** X10. While the provider is mounted, an auth event never leaves a stale
    identity: after a sign-out or refresh-failure event, or an event without a
    session user, the identity is [null]; after an event with a session user
    it is what [getProfile] makes of the row the service returns for that
    user at that moment, with the email of the session, and [null] when that
    read is rejected.  The previous identity plays no part. *)
Theorem handleAuthEvent_identity_fresh_or_null event session w :
  mounted w = true ->
  user (snd (handleAuthEvent remote event session w)) =
    if (String.eqb event "TOKEN_REFRESH_FAILED" || String.eqb event "SIGNED_OUT")%bool
    then None
    else match session with
         | None => None
         | Some su =>
             match fst (remote (SelectProfile (session_id su)) (service w)) with
             | Fulfilled res => resolved res (session_email su)
             | Rejected _ => None
             end
         end.
Proof.
  intros Hm. destruct w as [sv u ld m tr]. simpl in Hm. subst m.
  auth_unfold. unfold resolved.
  destruct (String.eqb event "TOKEN_REFRESH_FAILED" || String.eqb event "SIGNED_OUT")%bool.
  - cbn. repeat auth_case; reflexivity.
  - destruct session as [su|]; cbn; [|reflexivity].
    destruct (remote (SelectProfile (session_id su)) sv) as [[res|t] rs]; cbn in *.
    + destruct (error res); cbn; [reflexivity|].
      destruct (data res); reflexivity.
    + repeat auth_case; reflexivity.
Qed.

Ltac unmount_case cleanup_during :=
  match goal with
  | |- context [remote ?r ?s] => destruct (remote r s) as [[?res|?t] ?rs]
  | |- context [cleanup_during ?r ?s] => destruct (cleanup_during r s)
  | |- context [match @error ?D ?r with _ => _ end] => destruct (@error D r)
  | |- context [match @data ?D ?r with _ => _ end] => destruct (@data D r)
  end;
  cbn in *.

(** X11. The cleanup of the provider may run while a request is pending.
    The session check never writes after it: when the provider is unmounted
    at the end, the identity and [loading] are those of the start.  The
    listener never writes [loading] after it, and can write the identity
    after it in one way only: the read of the profile was rejected, the
    handler of that error saw [mounted] true, and [setUser(null)] follows its
    [await] of the sign-out without another look at the flag. *)
Theorem provider_unmounted_writes_nothing cleanup_during event session answer w :
  (mounted (snd (AuthUnmount.getInitialSession remote cleanup_during answer w)) = false ->
   user (snd (AuthUnmount.getInitialSession remote cleanup_during answer w)) = user w /\
   loading (snd (AuthUnmount.getInitialSession remote cleanup_during answer w))
     = loading w) /\
  (mounted (snd (AuthUnmount.handleAuthEvent remote cleanup_during event session w))
     = false ->
   loading (snd (AuthUnmount.handleAuthEvent remote cleanup_during event session w))
     = loading w /\
   (user (snd (AuthUnmount.handleAuthEvent remote cleanup_during event session w))
      = user w \/
    (user (snd (AuthUnmount.handleAuthEvent remote cleanup_during event session w))
       = None /\
     mounted w = true /\
     exists su t,
       session = Some su /\
       fst (remote (SelectProfile (session_id su)) (service w)) = Rejected t))).
Proof.
  destruct w as [sv u ld m tr]. split.
  - unfold AuthUnmount.getInitialSession, AuthUnmount.getProfile, AuthUnmount.await,
      unmount.
    auth_unfold.
    destruct m;
      (destruct answer as [res|t];
       [destruct (error res) as [e|];
        [destruct (mentions_refresh_token (message e))|destruct (data res) as [[su|]|]]|]);
      cbn; repeat unmount_case cleanup_during;
      intros H; try discriminate H; split; reflexivity.
  - unfold AuthUnmount.handleAuthEvent, AuthUnmount.getProfile, AuthUnmount.await,
      unmount.
    auth_unfold.
    destruct m;
      (destruct (String.eqb event "TOKEN_REFRESH_FAILED" || String.eqb event "SIGNED_OUT")%bool;
       [|destruct session as [su|]]);
      cbn;
      try (destruct (remote (SelectProfile (session_id su)) sv) as [[res|t] rs] eqn:Hsel;
           cbn);
      repeat unmount_case cleanup_during;
      intros H; try discriminate H;
      (split; [reflexivity|]);
      first [ left; reflexivity
            | right; split; [reflexivity|]; split; [reflexivity|];
              do 2 eexists; split; [reflexivity|]; rewrite Hsel; reflexivity ].
Qed.

(** With no cleanup during the calls these are the functions of
    [AuthContext] and [AuthSession]. *)
Lemma without_cleanup_same_calls event session answer w :
  AuthUnmount.handleAuthEvent remote AuthUnmount.never event session w
    = handleAuthEvent remote event session w /\
  AuthUnmount.getInitialSession remote AuthUnmount.never answer w
    = getInitialSession remote answer w.
Proof.
  destruct w as [sv u ld m tr]. split.
  - unfold AuthUnmount.handleAuthEvent, AuthUnmount.getProfile, AuthUnmount.await,
      AuthUnmount.never.
    auth_unfold.
    destruct (String.eqb event "TOKEN_REFRESH_FAILED" || String.eqb event "SIGNED_OUT")%bool;
      [|destruct session as [su|]];
      destruct m; cbn; repeat auth_case; reflexivity.
  - unfold AuthUnmount.getInitialSession, AuthUnmount.getProfile, AuthUnmount.await,
      AuthUnmount.never.
    auth_unfold.
    destruct answer as [res|t];
      [destruct (error res) as [e|];
       [destruct (mentions_refresh_token (message e))|destruct (data res) as [[su|]|]]|];
      destruct m; cbn; repeat auth_case; reflexivity.
Qed.

(** X12. When the session lookup answers with an error, only an error whose
    message contains "refresh token" (in any casing) signs out: then one
    sign-out request is sent and, if still mounted, the identity is cleared;
    for any other message no request is sent and the identity is untouched. *)
Theorem getInitialSession_error_policy res e w :
  error res = Some e ->
  if mentions_refresh_token (message e)
  then requests (trace (snd (getInitialSession remote (Fulfilled res) w)))
         = (requests (trace w) ++ [SignOut])%list /\
       user (snd (getInitialSession remote (Fulfilled res) w))
         = (if mounted w then None else user w)
  else requests (trace (snd (getInitialSession remote (Fulfilled res) w)))
         = requests (trace w) /\
       user (snd (getInitialSession remote (Fulfilled res) w)) = user w /\
       service (snd (getInitialSession remote (Fulfilled res) w)) = service w.
Proof.
  intros He. destruct w as [sv u ld m tr]. auth_unfold. rewrite He.
  destruct (mentions_refresh_token (message e)); cbn.
  - destruct (remote SignOut sv) as [[r|t] rs]; destruct m; cbn;
      rewrite !requests_app; cbn; rewrite ?app_nil_r; split; reflexivity.
  - destruct m; cbn; rewrite !requests_app; cbn; rewrite ?app_nil_r;
      repeat split; reflexivity.
Qed.

(** X13. When the session lookup answers with a session user and the
    provider is mounted, the identity becomes what [getProfile] makes of the
    row read for that user; when that read is rejected, a sign-out request is
    sent and the identity is [null].  Without a session user nothing is
    requested and the identity is untouched. *)
Theorem getInitialSession_restores res (sel : Await (Result Profile) * RS) (w : World RS) :
  mounted w = true ->
  error res = None ->
  match data res with
  | Some (Some su) =>
      remote (SelectProfile (session_id su)) (service w) = sel ->
      match fst sel with
      | Fulfilled res' =>
          user (snd (getInitialSession remote (Fulfilled res) w))
            = resolved res' (session_email su)
      | Rejected _ =>
          user (snd (getInitialSession remote (Fulfilled res) w)) = None /\
          requests (trace (snd (getInitialSession remote (Fulfilled res) w)))
            = (requests (trace w) ++ [SelectProfile (session_id su); SignOut])%list
      end
  | _ =>
      user (snd (getInitialSession remote (Fulfilled res) w)) = user w /\
      trace (snd (getInitialSession remote (Fulfilled res) w)) = trace w
  end.
Proof.
  intros Hm He. destruct w as [sv u ld m tr]. simpl in Hm. subst m.
  auth_unfold. unfold resolved. rewrite He.
  destruct (data res) as [[su|]|]; cbn; [|split; reflexivity|split; reflexivity].
  intros <-. destruct (remote (SelectProfile (session_id su)) sv) as [[res'|t] rs]; cbn in *.
  - destruct (error res'); cbn; [reflexivity|].
    destruct (data res'); reflexivity.
  - destruct (remote SignOut rs) as [[r|t'] rs']; cbn;
      rewrite !requests_app; cbn; rewrite ?app_nil_r, <- ?app_assoc;
      split; reflexivity.
Qed.

(** X14. [signIn] and [signUp] have no [try]: whenever the request of a
    [signIn] is rejected the call throws what the service threw and
    [loading], set true at the start, is left true; and the same, on its own,
    for [signUp]. *)
Theorem sign_rejected_leaves_loading w :
  (forall email password t rs,
     remote (SignInWithPassword email password) (service w) = (Rejected t, rs) ->
     signIn remote email password w =
       (Throw t,
        {| service := rs; user := user w; loading := true; mounted := mounted w;
           trace := trace w ++ [Called (SignInWithPassword email password)] |})) /\
  (forall userData t rs,
     remote (SignUp (su_email userData) (su_password userData) (su_name userData)
               (su_accountType userData)) (service w) = (Rejected t, rs) ->
     signUp remote userData w =
       (Throw t,
        {| service := rs; user := user w; loading := true; mounted := mounted w;
           trace := trace w ++ [Called (SignUp (su_email userData) (su_password userData)
                                          (su_name userData)
                                          (su_accountType userData))] |})).
Proof.
  split.
  - intros email password t rs H. auth_unfold. rewrite H. reflexivity.
  - intros userData t rs H. auth_unfold. rewrite H. reflexivity.
Qed.

(** X15. [signIn] and [signUp] each send exactly one request, the auth call
    itself, and never write the identity, whatever the service answers: after
    a successful sign-in the identity is still the old one (it is the auth
    listener that sets it), and [signUp] neither creates nor reads a profile. *)
Theorem sign_calls_send_one_request email password userData w :
  requests (trace (snd (signIn remote email password w)))
    = (requests (trace w) ++ [SignInWithPassword email password])%list /\
  user (snd (signIn remote email password w)) = user w /\
  requests (trace (snd (signUp remote userData w)))
    = (requests (trace w)
       ++ [SignUp (su_email userData) (su_password userData) (su_name userData)
             (su_accountType userData)])%list /\
  user (snd (signUp remote userData w)) = user w.
Proof.
  destruct w as [sv u ld m tr]. auth_unfold.
  repeat split; repeat auth_case; cbn;
    rewrite ?requests_app; cbn; rewrite ?app_nil_r; reflexivity.
Qed.

(** X16. After a sign-up the service answers without error, [signUp] waits
    500 ms exactly when the answer carries a user, then ends with [loading]
    false; it sends nothing else. *)
Theorem signUp_waits_for_trigger userData w res d rs :
  remote (SignUp (su_email userData) (su_password userData) (su_name userData)
            (su_accountType userData)) (service w) = (Fulfilled res, rs) ->
  error res = None ->
  data res = Some d ->
  signUp remote userData w =
    (Return tt,
     {| service := rs; user := user w; loading := false; mounted := mounted w;
        trace := trace w
                 ++ Called (SignUp (su_email userData) (su_password userData)
                              (su_name userData) (su_accountType userData))
                    :: match su_user d with
                       | Some _ => [Slept 500]
                       | None => []
                       end |}).
Proof.
  intros H He Hd. auth_unfold. rewrite H. cbn in *. rewrite He, Hd.
  destruct (su_user d); cbn; rewrite <- ?app_assoc; reflexivity.
Qed.

(** X17. [signOut] does not look at what the auth call returns: whenever
    the call returns, with or without an error in its result, the identity is
    cleared and the call ends normally. *)
Theorem signOut_clears_on_any_answer w res rs :
  remote SignOut (service w) = (Fulfilled res, rs) ->
  signOut remote w =
    (Return tt,
     {| service := rs; user := None; loading := loading w; mounted := mounted w;
        trace := trace w ++ [Called SignOut] |}).
Proof. intros H. auth_unfold. rewrite H. reflexivity. Qed.

(** X18. [updateUser] has no [try].  With an identity: whenever the update
    request is rejected the call throws, the identity is unchanged and no
    profile is read; and, on its own, whenever the update is answered without
    error but reading the profile back is rejected, the call throws too and
    the identity is still the old one. *)
Theorem updateUser_rejections userData w u :
  user w = Some u ->
  (forall t rs,
     remote (UpdateProfile userData (id (profile u))) (service w) = (Rejected t, rs) ->
     updateUser remote userData w =
       (Throw t,
        {| service := rs; user := Some u; loading := loading w; mounted := mounted w;
           trace := trace w ++ [Called (UpdateProfile userData (id (profile u)))] |})) /\
  (forall res rs t rs',
     remote (UpdateProfile userData (id (profile u))) (service w) = (Fulfilled res, rs) ->
     error res = None ->
     remote (SelectProfile (id (profile u))) rs = (Rejected t, rs') ->
     updateUser remote userData w =
       (Throw t,
        {| service := rs'; user := Some u; loading := loading w; mounted := mounted w;
           trace := trace w ++ [Called (UpdateProfile userData (id (profile u)));
                                Called (SelectProfile (id (profile u)))] |})).
Proof.
  intros U. split.
  - intros t rs R. auth_unfold. rewrite U, R. cbn. rewrite <- U. reflexivity.
  - intros res rs t rs' R He R'. auth_unfold.
    rewrite U, R. cbn in *. rewrite He. cbn. rewrite R'. cbn.
    rewrite <- app_assoc, <- U. reflexivity.
Qed.

(** X19. [getProfile] only reads: it sends one request, the read of the row
    whose [id] is given, and leaves the identity, [loading] and [mounted] as
    they are.  It returns [null] when the service reports an error or no row,
    the row with the given email otherwise, and throws only when the request
    is rejected. *)
Theorem getProfile_reads_only id email w :
  user (snd (getProfile remote id email w)) = user w /\
  loading (snd (getProfile remote id email w)) = loading w /\
  mounted (snd (getProfile remote id email w)) = mounted w /\
  requests (trace (snd (getProfile remote id email w)))
    = (requests (trace w) ++ [SelectProfile id])%list /\
  fst (getProfile remote id email w) =
    match fst (remote (SelectProfile id) (service w)) with
    | Fulfilled res => Return (resolved res email)
    | Rejected t => Throw t
    end.
Proof.
  destruct w as [sv u ld m tr]. auth_unfold. unfold resolved.
  destruct (remote (SelectProfile id) sv) as [[res|t] rs]; cbn in *.
  - destruct (error res); [|destruct (data res)]; cbn;
      rewrite ?requests_app; cbn; rewrite ?app_nil_r; repeat split; reflexivity.
  - rewrite requests_app. repeat split; reflexivity.
Qed.

End AuthExtras.

Section AuthExtraExamples.
Import AuthContext AuthSession.

Lemma handleAuthEvent_identity_fresh_or_null_witness :
  mounted (Sample.world_of (Sample.service_of Sample.Healthy Sample.Healthy Sample.Healthy)
             (Some Sample.bob_user)) = true /\
  user (snd (handleAuthEvent Sample.serve "SIGNED_IN"
               (Some {| session_id := "u1"; session_email := "ada@example.org" |})
               (Sample.world_of
                  (Sample.service_of Sample.Healthy Sample.Healthy Sample.Healthy)
                  (Some Sample.bob_user)))) = Some Sample.ada_user /\
  user (snd (handleAuthEvent Sample.serve "TOKEN_REFRESHED"
               (Some {| session_id := "u1"; session_email := "ada@example.org" |})
               (Sample.world_of
                  (Sample.service_of Sample.Healthy Sample.Healthy
                     (Sample.Throwing (ThrownError "Failed to fetch")))
                  (Some Sample.bob_user)))) = None.
Proof.
  split; [reflexivity|]. split.
  - rewrite (handleAuthEvent_identity_fresh_or_null Sample.serve "SIGNED_IN"
               (Some {| session_id := "u1"; session_email := "ada@example.org" |})
               (Sample.world_of
                  (Sample.service_of Sample.Healthy Sample.Healthy Sample.Healthy)
                  (Some Sample.bob_user)) eq_refl).
    reflexivity.
  - rewrite (handleAuthEvent_identity_fresh_or_null Sample.serve "TOKEN_REFRESHED"
               (Some {| session_id := "u1"; session_email := "ada@example.org" |})
               (Sample.world_of
                  (Sample.service_of Sample.Healthy Sample.Healthy
                     (Sample.Throwing (ThrownError "Failed to fetch")))
                  (Some Sample.bob_user)) eq_refl).
    reflexivity.
Defined.

Lemma provider_unmounted_writes_nothing_witness :
  mounted (snd (AuthUnmount.getInitialSession Sample.serve AuthUnmount.during_sign_out
                  (Rejected (ThrownError "Failed to fetch"))
                  (Sample.world_of
                     (Sample.service_of Sample.Healthy Sample.Healthy Sample.Healthy)
                     (Some Sample.bob_user)))) = false /\
  user (snd (AuthUnmount.getInitialSession Sample.serve AuthUnmount.during_sign_out
               (Rejected (ThrownError "Failed to fetch"))
               (Sample.world_of
                  (Sample.service_of Sample.Healthy Sample.Healthy Sample.Healthy)
                  (Some Sample.bob_user)))) = Some Sample.bob_user.
Proof.
  split; [reflexivity|].
  apply (proj1 (provider_unmounted_writes_nothing Sample.serve AuthUnmount.during_sign_out
                  "SIGNED_IN" None (Rejected (ThrownError "Failed to fetch"))
                  (Sample.world_of
                     (Sample.service_of Sample.Healthy Sample.Healthy Sample.Healthy)
                     (Some Sample.bob_user)))).
  reflexivity.
Defined.

(** The one write after the cleanup: the read is rejected, the cleanup runs
    during the sign-out of the error handler, and the identity is cleared
    although the provider is unmounted by then. *)
Lemma listener_clears_identity_after_cleanup :
  AuthUnmount.handleAuthEvent Sample.serve AuthUnmount.during_sign_out "SIGNED_IN"
    (Some {| session_id := "u1"; session_email := "ada@example.org" |})
    (Sample.world_of
       (Sample.service_of Sample.Healthy Sample.Healthy
          (Sample.Throwing (ThrownError "Failed to fetch")))
       (Some Sample.bob_user))
    = (Return tt,
       {| service := Sample.service_of Sample.Healthy Sample.Healthy
                       (Sample.Throwing (ThrownError "Failed to fetch"));
          user := None; loading := false; mounted := false;
          trace := [Called (SelectProfile "u1"); Logged "Auth listener error:";
                    Called SignOut] |}).
Proof. reflexivity. Qed.

Lemma getInitialSession_error_policy_witness :
  mentions_refresh_token "Invalid Refresh Token: Refresh Token Not Found" = true /\
  mentions_refresh_token "Failed to fetch" = false /\
  user (snd (getInitialSession Sample.serve
               (Fulfilled (failed {| message := "Invalid Refresh Token: Refresh Token Not Found" |}))
               (Sample.world_of (Sample.service_of Sample.Healthy Sample.Healthy
                                   Sample.Healthy) (Some Sample.ada_user)))) = None /\
  user (snd (getInitialSession Sample.serve
               (Fulfilled (failed {| message := "Failed to fetch" |}))
               (Sample.world_of (Sample.service_of Sample.Healthy Sample.Healthy
                                   Sample.Healthy) (Some Sample.ada_user))))
    = Some Sample.ada_user.
Proof.
  split; [reflexivity|]. split; [reflexivity|]. split.
  - exact (proj2 (getInitialSession_error_policy Sample.serve
                    (failed {| message := "Invalid Refresh Token: Refresh Token Not Found" |})
                    {| message := "Invalid Refresh Token: Refresh Token Not Found" |}
                    (Sample.world_of (Sample.service_of Sample.Healthy Sample.Healthy
                                        Sample.Healthy) (Some Sample.ada_user))
                    eq_refl)).
  - exact (proj1 (proj2 (getInitialSession_error_policy Sample.serve
                    (failed {| message := "Failed to fetch" |})
                    {| message := "Failed to fetch" |}
                    (Sample.world_of (Sample.service_of Sample.Healthy Sample.Healthy
                                        Sample.Healthy) (Some Sample.ada_user))
                    eq_refl))).
Defined.

Lemma getInitialSession_restores_witness :
  user (snd (getInitialSession Sample.serve
               (Fulfilled (ok (Some {| session_id := "u1";
                                       session_email := "ada@example.org" |})))
               (start (Sample.service_of Sample.Healthy Sample.Healthy Sample.Healthy))))
    = Some Sample.ada_user.
Proof.
  exact (getInitialSession_restores Sample.serve
           (ok (Some {| session_id := "u1"; session_email := "ada@example.org" |})) _
           (start (Sample.service_of Sample.Healthy Sample.Healthy Sample.Healthy))
           eq_refl eq_refl eq_refl).
Defined.

Lemma sign_rejected_leaves_loading_witness :
  loading (snd (signIn Sample.serve "ada@example.org" "pw"
                  (Sample.world_of
                     (Sample.service_of (Sample.Throwing (ThrownError "Failed to fetch"))
                        Sample.Healthy Sample.Healthy) None))) = true /\
  fst (signUp Sample.serve
         {| su_email := "ada@example.org"; su_password := "pw"; su_name := "Ada";
            su_accountType := "creator" |}
         (Sample.world_of
            (Sample.service_of (Sample.Throwing (ThrownValue "offline"))
               Sample.Healthy Sample.Healthy) None)) = Throw (ThrownValue "offline").
Proof.
  split.
  - rewrite (proj1 (sign_rejected_leaves_loading Sample.serve
               (Sample.world_of
                  (Sample.service_of (Sample.Throwing (ThrownError "Failed to fetch"))
                     Sample.Healthy Sample.Healthy) None))
               "ada@example.org" "pw" _ _ eq_refl).
    reflexivity.
  - rewrite (proj2 (sign_rejected_leaves_loading Sample.serve
               (Sample.world_of
                  (Sample.service_of (Sample.Throwing (ThrownValue "offline"))
                     Sample.Healthy Sample.Healthy) None))
               {| su_email := "ada@example.org"; su_password := "pw"; su_name := "Ada";
                  su_accountType := "creator" |} _ _ eq_refl).
    reflexivity.
Defined.

Lemma signUp_waits_for_trigger_witness :
  trace (snd (signUp Sample.serve
                {| su_email := "eve@example.org"; su_password := "pw"; su_name := "Eve";
                   su_accountType := "member" |}
                (Sample.world_of (Sample.service_of Sample.Healthy Sample.Healthy
                                    Sample.Healthy) None)))
    = [Called (SignUp "eve@example.org" "pw" "Eve" "member"); Slept 500].
Proof.
  rewrite (signUp_waits_for_trigger Sample.serve
             {| su_email := "eve@example.org"; su_password := "pw"; su_name := "Eve";
                su_accountType := "member" |}
             (Sample.world_of (Sample.service_of Sample.Healthy Sample.Healthy
                                 Sample.Healthy) None)
             _ {| su_user := Some "eve@example.org" |} _ eq_refl eq_refl eq_refl).
  reflexivity.
Defined.

Lemma signOut_clears_on_any_answer_witness :
  user (snd (signOut Sample.serve
               (Sample.world_of
                  (Sample.service_of (Sample.Erroring "session not found") Sample.Healthy
                     Sample.Healthy) (Some Sample.ada_user)))) = None.
Proof.
  rewrite (signOut_clears_on_any_answer Sample.serve
             (Sample.world_of
                (Sample.service_of (Sample.Erroring "session not found") Sample.Healthy
                   Sample.Healthy) (Some Sample.ada_user)) _ _ eq_refl).
  reflexivity.
Defined.

Lemma updateUser_rejections_witness :
  user (snd (updateUser Sample.serve (Sample.rename "Ada L.")
               (Sample.world_of
                  (Sample.service_of Sample.Healthy
                     (Sample.Throwing (ThrownError "Failed to fetch")) Sample.Healthy)
                  (Some Sample.ada_user)))) = Some Sample.ada_user /\
  user (snd (updateUser Sample.serve (Sample.rename "Ada L.")
               (Sample.world_of
                  (Sample.service_of Sample.Healthy Sample.Healthy
                     (Sample.Throwing (ThrownError "Failed to fetch")))
                  (Some Sample.ada_user)))) = Some Sample.ada_user /\
  Sample.profiles
    (service (snd (updateUser Sample.serve (Sample.rename "Ada L.")
                     (Sample.world_of
                        (Sample.service_of Sample.Healthy Sample.Healthy
                           (Sample.Throwing (ThrownError "Failed to fetch")))
                        (Some Sample.ada_user)))))
    = [Sample.patch (Sample.rename "Ada L.") Sample.ada; Sample.bob].
Proof.
  split.
  - rewrite (proj1 (updateUser_rejections Sample.serve (Sample.rename "Ada L.")
               (Sample.world_of
                  (Sample.service_of Sample.Healthy
                     (Sample.Throwing (ThrownError "Failed to fetch")) Sample.Healthy)
                  (Some Sample.ada_user)) Sample.ada_user eq_refl) _ _ eq_refl).
    reflexivity.
  - rewrite (proj2 (updateUser_rejections Sample.serve (Sample.rename "Ada L.")
               (Sample.world_of
                  (Sample.service_of Sample.Healthy Sample.Healthy
                     (Sample.Throwing (ThrownError "Failed to fetch")))
                  (Some Sample.ada_user)) Sample.ada_user eq_refl)
               _ _ _ _ eq_refl eq_refl eq_refl).
    split; reflexivity.
Defined.

End AuthExtraExamples.

(** * Properties of the settings form and of the writer *)

Section SettingsExtras.
Import Settings.






(** X22. What the form shows after a save that passed the checks, for each
    way the request of [updateStats] can end: [saving] is false and the five
    numbers are untouched in every case; [saved] is true, [error] [null] and
    the timer started when the service answers without error; otherwise
    [saved] is false, no timer, and [error] is the message of the service (or
    "Failed to update stats" when it is empty), the message of the [Error] the
    request threw, or "Unknown error" for another thrown value. *)
Theorem onSave_outcome r user_id f :
  truthy_string user_id = true ->
  valid f = true ->
  saving (fst (onSave (fun _ _ => r) user_id f)) = false /\
  portfolioViews (fst (onSave (fun _ _ => r) user_id f)) = portfolioViews f /\
  followers (fst (onSave (fun _ _ => r) user_id f)) = followers f /\
  rating (fst (onSave (fun _ _ => r) user_id f)) = rating f /\
  loyaltyPoints (fst (onSave (fun _ _ => r) user_id f)) = loyaltyPoints f /\
  projectsCompleted (fst (onSave (fun _ _ => r) user_id f)) = projectsCompleted f /\
  (saved (fst (onSave (fun _ _ => r) user_id f)),
   error (fst (onSave (fun _ _ => r) user_id f)),
   snd (onSave (fun _ _ => r) user_id f)) =
    match r with
    | Fulfilled res =>
        match Supabase.error res with
        | None => (true, None, true)
        | Some e =>
            (false, Some (or_string (message e) "Failed to update stats"), false)
        end
    | Rejected (ThrownError msg) => (false, Some msg, false)
    | Rejected (ThrownValue _) => (false, Some "Unknown error", false)
    end.
Proof.
  intros Hu Hv. unfold onSave, valid in *. rewrite Hu. cbn [negb].
  apply andb_true_iff in Hv as [Hr Hn].
  apply negb_true_iff in Hr. apply negb_true_iff in Hn. rewrite Hr, Hn.
  unfold UpdateUserStats.updateStats. rewrite Hu.
  destruct user_id as [uid|]; [|discriminate].
  destruct r as [res|[msg|v]]; simpl.
  - destruct (Supabase.error res); simpl; repeat split.
  - repeat split.
  - repeat split.
Qed.

Lemma onSave_outcome_witness :
  error (fst (onSave (Sample.stats_remote (Sample.Erroring "row not found")) (Some "u1")
                {| portfolioViews := 10; followers := 3; rating := 450;
                   loyaltyPoints := 0; projectsCompleted := 1; saving := false;
                   saved := true; error := None |})) = Some "row not found" /\
  saved (fst (onSave (Sample.stats_remote (Sample.Erroring "row not found")) (Some "u1")
                {| portfolioViews := 10; followers := 3; rating := 450;
                   loyaltyPoints := 0; projectsCompleted := 1; saving := false;
                   saved := true; error := None |})) = false.
Proof.
  pose proof (onSave_outcome (Fulfilled (failed {| message := "row not found" |}))
                (Some "u1")
                {| portfolioViews := 10; followers := 3; rating := 450; loyaltyPoints := 0;
                   projectsCompleted := 1; saving := false; saved := true; error := None |}
                eq_refl eq_refl) as (_ & _ & _ & _ & _ & _ & H).
  split; [reflexivity|]. exact (f_equal (fun x => fst (fst x)) H).
Defined.

End SettingsExtras.
